(** * gameness.views: the request handlers of the memory game

    A shallow embedding of [src/gameness/views.py]: the play endpoint
    ([ContestGameView.post]), the start endpoint ([ContestView]) and the
    highscore endpoint ([ContestHighscoreView]), run against an explicit
    model of the two stores they share: the relational tables (Game, Turn,
    SuspectedGame) and the HTTP session.

    Handlers are written in a small state-and-exception monad: a handler
    either returns a value or raises, and the writes made before a raise
    stay in the state (the views open no transaction). *)

From Stdlib Require Import ZArith QArith Lia SpecFloat.
From stdpp Require Import gmap strings list fin_maps pretty.

Set Warnings "-register-all".

Open Scope string_scope.
Open Scope Z_scope.

(** ** Python values *)

(** The dynamically typed values the views pass around: decoded JSON,
    [Decimal] scores, the lazy CSRF token, and [VJson v] for the string
    [json.dumps] makes of [v].  A [VDict] keeps its items in insertion
    order. *)
Inductive value : Type :=
  | VNone
  | VBool (b : bool)
  | VInt (n : Z)
  | VDec (q : Q)
  | VStr (s : string)
  | VLazy (s : string)
  | VJson (v : value)
  | VList (l : list value)
  | VDict (items : list (string * value)).

(** A [str] that is handed to [json.loads].  The text is identified with
    what the decoder makes of it: [Enc v] is a text decoding to [v],
    [Raw s] a text the decoder rejects. *)
Inductive text : Type :=
  | Enc (v : value)
  | Raw (s : string).

(** The exceptions the handlers can raise. *)
Inductive exn : Type :=
  | KeyError (k : string)
  | MultiValueDictKeyError (k : string)
  | IndexError
  | TypeError
  | ValueError
  | JSONDecodeError
  | AttributeError (a : string)
  | ZeroDivisionError.

(** ** The stores *)

(** Modelled from the spec: the Game model, of gameness/models.py, which is
    not among the sources.  A row holds the fields the views read and write
    and those of the spec's data model; the primary key is the key of the
    table; the playfield, stored as JSON text, is kept decoded; timestamps
    are microseconds; the average time of a turn is a binary64 float. *)
Record Game : Type := mkGame {
  player : string;
  playfield : list (list Z);
  seed : string;
  active : bool;
  finished : bool;
  score : Q;
  time : spec_float;
  created : Z;
  open_turn : bool;
  hold_card : text
}.

(** Modelled from the spec: the Turn model, of gameness/models.py: the
    owning game, the clicks compared, the match flag and the timestamp of
    the row's creation. *)
Record Turn : Type := mkTurn {
  turn_game : Z;
  meta : value;
  is_match : bool;
  turn_created : Z
}.

(** [request.session]: the keys the views read and write, each absent or
    present. *)
Record Session : Type := mkSession {
  s_player : option string;
  s_game_id : option string;
  s_game : option Z;
  s_click : option text;
  s_turn : option Z
}.

(** The state a request runs against.  Timestamps are microseconds. *)
Record State : Type := mkState {
  games : gmap Z Game;
  turns : gmap Z Turn;
  suspected : gset Z;
  session : Session
}.

(** What a request brings: the posted [click] field, the CSRF token of the
    request, the clock, and the draws of [random.choice] and [uuid4]. *)
Record Request : Type := mkRequest {
  POST_click : option text;
  csrf_token : string;
  now : Z;
  draw : nat;
  uuid_a : string;
  uuid_b : string
}.

Record JsonResponse : Type := mkResponse {
  body : gmap string value;
  status : Z
}.

(** ** The handler monad *)

Inductive result (A : Type) : Type :=
  | Ok (a : A)
  | Raised (e : exn).
Arguments Ok {A} a.
Arguments Raised {A} e.

Definition M (A : Type) : Type := State → result A * State.

Definition ret {A} (a : A) : M A := λ st, (Ok a, st).

Definition bind {A B} (m : M A) (k : A → M B) : M B :=
  λ st, match m st with
        | (Ok a, st') => k a st'
        | (Raised e, st') => (Raised e, st')
        end.

Definition raise {A} (e : exn) : M A := λ st, (Raised e, st).

Definition get_state : M State := λ st, (Ok st, st).

Definition put_state (st : State) : M unit := λ _, (Ok tt, st).

Declare Scope handler_scope.
Delimit Scope handler_scope with handler.
Notation "x <- m ;; k" := (bind m (λ x, k))
  (at level 20, m at level 99, k at level 200, only parsing) : handler_scope.
Notation "m ;;; k" := (bind m (λ _, k))
  (at level 100, k at level 200, right associativity, only parsing)
  : handler_scope.
Open Scope handler_scope.

(** [o] or raise [e]. *)
Definition or_raise {A} (o : option A) (e : exn) : M A :=
  match o with
  | Some a => ret a
  | None => raise e
  end.

Definition set_games (f : gmap Z Game → gmap Z Game) (st : State) : State :=
  mkState (f (games st)) (turns st) (suspected st) (session st).

Definition set_turns (f : gmap Z Turn → gmap Z Turn) (st : State) : State :=
  mkState (games st) (f (turns st)) (suspected st) (session st).

Definition set_suspected (f : gset Z → gset Z) (st : State) : State :=
  mkState (games st) (turns st) (f (suspected st)) (session st).

Definition set_session (f : Session → Session) (st : State) : State :=
  mkState (games st) (turns st) (suspected st) (f (session st)).

Definition modify (f : State → State) : M unit := λ st, (Ok tt, f st).

(** ** Framework operations *)

(** [Model.save()] with the primary key set: the row stored under the key
    is written, inserted when the key is new and overwritten when it
    exists. *)
Definition save_game (pk : Z) (g : Game) : M unit :=
  modify (set_games (insert pk g)).

Definition save_turn (pk : Z) (t : Turn) : M unit :=
  modify (set_turns (insert pk t)).

(** [Game.objects.get(pk=.., player=.., active=True, finished=False)];
    [None] stands for [Game.DoesNotExist]. *)
Definition Game_objects_get (pk : Z) (p : string) (st : State) : option Game :=
  match games st !! pk with
  | Some g =>
      if bool_decide (player g = p) && active g && negb (finished g)
      then Some g else None
  | None => None
  end.

(** [json.loads]. *)
Definition json_loads (t : text) : M value :=
  match t with
  | Enc v => ret v
  | Raw _ => raise JSONDecodeError
  end.

(** [d[k]] of a decoded object: the last item with the key wins. *)
Fixpoint dict_get (k : string) (items : list (string * value)) : option value :=
  match items with
  | [] => None
  | (k', v) :: rest =>
      match dict_get k rest with
      | Some w => Some w
      | None => if bool_decide (k' = k) then Some v else None
      end
  end.

Definition subscript (v : value) (k : string) : M value :=
  match v with
  | VDict items => or_raise (dict_get k items) (KeyError k)
  | _ => raise TypeError
  end.

(** [l[i]] of a list, for an index inside the list. *)
Definition list_index {A} (l : list A) (i : Z) : M A :=
  if bool_decide (0 ≤ i) then or_raise (l !! Z.to_nat i) IndexError
  else raise IndexError.

(** [django.template.context_processors.csrf]: a dictionary with the one
    key [csrf_token], bound to the lazily evaluated token. *)
Definition aquire_csrf (req : Request) : gmap string value :=
  {[ "csrf_token" := VLazy (csrf_token req) ]}.

(** [smart_text] forces a lazy string. *)
Definition smart_text (v : value) : value :=
  match v with
  | VLazy s => VStr s
  | _ => v
  end.

(** [context.update(d)]: the items of [d] win. *)
Definition update (d context : gmap string value) : gmap string value :=
  d ∪ context.

(** ** gameness.models *)

(** Modelled from the spec: [Game.get_card_id], of gameness/models.py,
    which is not among the sources.  It returns "the revealed card id for
    that cell": the playfield entry at the click's row and column. *)
Definition get_card_id (g : Game) (c : value) : M Z :=
  r <- subscript c "row";;
  col <- subscript c "column";;
  match r, col with
  | VInt r, VInt col =>
      cells <- list_index (playfield g) r;;
      list_index cells col
  | _, _ => raise TypeError
  end.

(** Modelled from the spec: [Game.update_turn], of gameness/models.py.  It
    records the click as pending on the game ([True], the posted text) or
    clears the pending click ([False]). *)
Definition update_turn (g : Game) (flag : bool) (click : text) : Game :=
  mkGame (player g) (playfield g) (seed g) (active g) (finished g) (score g)
         (time g) (created g) flag click.

(** Modelled from the spec: a click as [Game.match] reports it, with the
    card of its cell. *)
Definition revealed (c : value) (card : Z) : M value :=
  r <- subscript c "row";;
  col <- subscript c "column";;
  ret (VDict [("row", r); ("column", col); ("card", VInt card)]).

(** Modelled from the spec: [Game.match], of gameness/models.py.  It
    "resolves the pair by comparing the underlying card ids at both pending
    and new coordinates"; the first component lists both clicks with their
    cards, the second is the match flag. *)
Definition match_ (g : Game) (click1 click2 : value) : M (value * bool) :=
  card1 <- get_card_id g click1;;
  card2 <- get_card_id g click2;;
  d1 <- revealed click1 card1;;
  d2 <- revealed click2 card2;;
  ret (VList [d1; d2], bool_decide (card1 = card2)).

(** Modelled from the spec: [Game.end_game], of gameness/models.py: the
    score and the average seconds per turn are recorded on the game. *)
Definition end_game (g : Game) (s : Q) (t : spec_float) : Game :=
  mkGame (player g) (playfield g) (seed g) (active g) (finished g) s
         t (created g) (open_turn g) (hold_card g).

(** Modelled from the spec: [Game.set_finished], of gameness/models.py:
    "mark the game finished and inactive". *)
Definition set_finished (g : Game) : Game :=
  mkGame (player g) (playfield g) (seed g) false true (score g)
         (time g) (created g) (open_turn g) (hold_card g).

(** Modelled from the spec: what stopping does to a row, the active flag
    is cleared. *)
Definition deactivate (g : Game) : Game :=
  mkGame (player g) (playfield g) (seed g) false (finished g) (score g)
         (time g) (created g) (open_turn g) (hold_card g).

Definition stop (p : string) (g : Game) : Game :=
  if bool_decide (player g = p) && active g then deactivate g else g.

(** Modelled from the spec: the manager's [stop_active_games_for_player],
    of gameness/models.py: it "deactivates any other active game for that
    player". *)
Definition stop_active_games_for_player (p : string) : M unit :=
  modify (set_games (fmap (stop p))).

(** The rest of gameness/models.py and of the configuration enters as
    parameters: the views only pass their results on. *)
Class Collaborators : Type := {
  (** [settings.USER_EMAILS] *)
  USER_EMAILS : list string;
  (** [static(path)] *)
  static : string → string;
  (** [Game.generate_play_field(rows, columns, seed)[0]] *)
  generate_play_field : Z → Z → string → list (list Z);
  (** [game.calculate_score()], from the clock, the Turn table, the game *)
  calculate_score : Z → gmap Z Turn → Z → Game → Q;
  (** whether [SuspectedGame.is_game_suspected(game)] flags the game *)
  is_game_suspected : gmap Z Turn → Z → Game → bool;
  (** the highscore queries of the manager *)
  get_player_best_score : gmap Z Game → string → value;
  get_highscores : gmap Z Game → list value;
  get_unique_highscores : gmap Z Game → list value
}.

(** ** Queries on the Turn table *)

(** [game.turns]: the turns whose foreign key is the game. *)
Definition game_turns (ts : gmap Z Turn) (pk : Z) : gmap Z Turn :=
  filter (λ kt, turn_game kt.2 = pk) ts.

(** [game.turns.filter(is_match=True)] *)
Definition matched_turns (ts : gmap Z Turn) (pk : Z) : gmap Z Turn :=
  filter (λ kt, is_match kt.2 = true) (game_turns ts pk).

(** [queryset.last()]: the row with the greatest primary key, [None] on an
    empty queryset. *)
Definition later (kt : Z * Turn) (acc : option (Z * Turn)) : option (Z * Turn) :=
  match acc with
  | Some (k', t') => if bool_decide (k' < kt.1) then Some kt else Some (k', t')
  | None => Some kt
  end.

Definition last (ts : gmap Z Turn) : option Turn :=
  snd <$> foldr later None (map_to_list ts).

(** ** timedelta *)

(** [timedelta / int]: the quotient in microseconds, rounded to the nearest
    microsecond, ties to even (CPython's [_divide_and_round]). *)
Definition divide_and_round (a b : Z) : Z :=
  let q := a `div` b in
  let r := 2 * (a `mod` b) in
  let greater_than_half := if bool_decide (0 < b) then bool_decide (b < r)
                           else bool_decide (r < b) in
  if greater_than_half || (bool_decide (r = b) && bool_decide (q `mod` 2 = 1))
  then q + 1 else q.

Definition timedelta_div (d n : Z) : M Z :=
  if bool_decide (n = 0) then raise ZeroDivisionError
  else ret (divide_and_round d n).

(** An [int] as operand of a true division. *)
Definition Z2SF (z : Z) : spec_float :=
  match z with
  | Z0 => S754_zero false
  | Zpos p => S754_finite false p 0
  | Zneg p => S754_finite true p 0
  end.

(** [timedelta.total_seconds()]: the microseconds over [10**6], a true
    division of two [int]s, whose result is the binary64 float nearest to
    the quotient (ties to even). *)
Definition total_seconds (d : Z) : spec_float :=
  SFdiv 53 1024 (Z2SF d) (Z2SF 1000000).

(** ** gameness.views *)

(** [game_completed(game)]: are there enough matched rounds to finish the
    game.  [pairs] is a true division, kept as the exact rational (the
    float is exact for every cell count below 2^53); [pf[0]] raises on an
    empty playfield. *)
Definition game_completed (pk : Z) (game : Game) : M bool :=
  st <- get_state;;
  let matches := Z.of_nat (size (matched_turns (turns st) pk)) in
  row0 <- list_index (playfield game) 0;;
  let pairs := (Z.of_nat (length (playfield game)) * Z.of_nat (length row0)) # 2 in
  if Qeq_bool (inject_Z matches) pairs then ret true else ret false.

Definition set_turn_counter (n : Z) (s : Session) : Session :=
  mkSession (s_player s) (s_game_id s) (s_game s) (s_click s) (Some n).

Definition pop_game (s : Session) : Session :=
  mkSession (s_player s) (s_game_id s) None (s_click s) (s_turn s).

Definition pop_click (s : Session) : Session :=
  mkSession (s_player s) (s_game_id s) (s_game s) None (s_turn s).

Definition set_game (pk : Z) (s : Session) : Session :=
  mkSession (s_player s) (s_game_id s) (Some pk) (s_click s) (s_turn s).

Definition set_player (p : string) (s : Session) : Session :=
  mkSession (Some p) (s_game_id s) (s_game s) (s_click s) (s_turn s).

Definition set_game_id (u : string) (s : Session) : Session :=
  mkSession (s_player s) (Some u) (s_game s) (s_click s) (s_turn s).

Section Views.
Context `{Collaborators}.

(** The first click of a round (lines 85 to 91). *)
Definition first_click (req : Request) (game_id : Z) (game : Game)
  : M JsonResponse :=
  raw <- or_raise (POST_click req) (MultiValueDictKeyError "click");;
  c <- json_loads raw;;
  card <- get_card_id game c;;
  let game := update_turn game true raw in
  save_game game_id game;;;
  row <- subscript c "row";;
  column <- subscript c "column";;
  let c1 := VDict [("row", row); ("column", column); ("card", VInt card)] in
  ret (mkResponse (<["click" := VList [c1]]> {[ "success" := VBool true ]}) 200).

(** Closing the game (lines 113 to 124). *)
Definition close_game (req : Request) (game_id : Z) (game : Game)
    (context : gmap string value) : M (gmap string value) :=
  modify (set_session pop_game);;;
  st <- get_state;;
  let reached := calculate_score (now req) (turns st) game_id game in
  last_turn <- or_raise (last (game_turns (turns st) game_id))
                        (AttributeError "created");;
  let count := Z.of_nat (size (game_turns (turns st) game_id)) in
  average <- timedelta_div (turn_created last_turn - created game) count;;
  let time := total_seconds average in
  let game := end_game game reached time in
  let game := set_finished game in
  save_game game_id game;;;
  st <- get_state;;
  (if is_game_suspected (turns st) game_id game
   then modify (set_suspected (union {[ game_id ]}))
   else ret tt);;;
  ret (update (<["score" := VDec (score game)]>
                 {[ "completed" := VBool true ]}) context).

(** The second click of a round (lines 94 to 129).  The Turn's timestamp
    is the clock of the request: the row is created by this save. *)
Definition second_click (req : Request) (game_id : Z) (game : Game)
    (context : gmap string value) : M JsonResponse :=
  click1 <- json_loads (hold_card game);;
  raw <- or_raise (POST_click req) (MultiValueDictKeyError "click");;
  click2 <- json_loads raw;;
  got_match <- match_ game click1 click2;;
  let the_click : gmap string value :=
    <["match" := VBool got_match.2]> {[ "click" := got_match.1 ]} in
  st <- get_state;;
  let pk := default (game_id * 10 + 1) (s_turn (session st)) in
  let turn := mkTurn game_id got_match.1 got_match.2 (now req) in
  save_turn pk turn;;;
  modify (set_session (set_turn_counter (pk + 1)));;;
  let game := update_turn game false (Enc (VDict [])) in
  save_game game_id game;;;
  let context := update the_click context in
  completed <- game_completed game_id game;;
  context <- (if completed then close_game req game_id game context
              else ret context);;
  let context :=
    match context !! "csrf_token" with
    | Some token => update {[ "csrf_token" := smart_text token ]} context
    | None => context
    end in
  ret (mkResponse context 200).

(** [ContestGameView.post] *)
Definition post (req : Request) : M JsonResponse :=
  st <- get_state;;
  match s_game (session st) with
  | None => ret (mkResponse {[ "success" := VBool false ]} 500)
  | Some game_id =>
      let context : gmap string value :=
        update (aquire_csrf req) {[ "success" := VBool true ]} in
      player <- or_raise (s_player (session st)) (KeyError "player");;
      match Game_objects_get game_id player st with
      | None =>
          ret (mkResponse
                 (<["msg" := VStr "No active game session found."]>
                    {[ "success" := VBool false ]}) 404)
      | Some game =>
          if negb (open_turn game) then first_click req game_id game
          else second_click req game_id game context
      end
  end.

(** [random.choice(seq)]: the element at the drawn position; an empty
    sequence raises. *)
Definition choice (seq : list string) (r : nat) : M string :=
  or_raise (seq !! (r `mod` length seq)%nat) IndexError.

(** The key [Game.objects.create] gives the new row: one past the greatest
    key of the table. *)
Definition next_pk (gs : gmap Z Game) : Z :=
  1 + foldr Z.max 0 (map_to_list gs).*1.

(** Modelled from the spec: the row [Game.objects.create] inserts, with
    the columns the call leaves to the defaults of gameness/models.py: no
    score, no average time, no pending click, created now. *)
Definition new_game (p : string) (sd : string) (pf : list (list Z)) (t : Z)
  : Game :=
  mkGame p pf sd true false 0 (S754_zero false) t false (Enc (VDict [])).

(** The positive-score games of a player:
    [Game.objects.filter(player=.., score__gt=0.0)]. *)
Definition positive_score (g : Game) : bool := negb (Qle_bool (score g) 0).

Definition high_score_games (gs : gmap Z Game) (p : string) : gmap Z Game :=
  filter (λ kg, player kg.2 = p ∧ positive_score kg.2 = true) gs.

(** [ContestView.get_game_context].  [high_score_game] is the queryset
    itself: it is truthy when it has a row, and has no attribute [score]. *)
Definition get_game_context (dimensions : list Z) : M (gmap string value) :=
  st <- get_state;;
  p <- or_raise (s_player (session st)) (KeyError "player");;
  let high_score_game := high_score_games (games st) p in
  best_score <- (if bool_decide (size high_score_game ≠ 0%nat)
                 then raise (AttributeError "score")
                 else ret (VDec 0));;
  rows <- list_index dimensions 0;;
  cols <- list_index dimensions 1;;
  let game_data := VDict [
    ("success", VBool true);
    ("name", VStr "Memory");
    ("best_score", best_score);
    ("rows", VInt rows);
    ("cols", VInt cols);
    ("pieces", VList ((λ i : nat, VStr (static ("img/memory/stack/" +:+ pretty i +:+ ".jpg")))
                        <$> seq 1 10));
    ("backPiece", VStr (static "img/memory/card-backside-default.png"));
    ("font_url", VStr (static "games/fonts/press-start-2p.css"));
    ("font_family", VStr "Press Start 2P");
    ("audio_win", VStr (static "games/sfx/memory-win.wav"));
    ("audio_hit", VStr (static "games/sfx/memory-hit.wav"));
    ("audio_miss", VStr (static "games/sfx/memory-miss.wav")) ] in
  ret (<["game_name" := VStr "Memory"]> {[ "game_data" := VJson game_data ]}).

(** [ContestView.get_context_data].  The entries the framework's base class
    puts into the context are left out. *)
Definition get_context_data (req : Request) : M (gmap string value) :=
  let context : gmap string value := ∅ in
  p <- choice USER_EMAILS (draw req);;
  modify (set_session (set_player p));;;
  let context := <["player" := VStr p]> context in
  modify (set_session (set_game_id (uuid_a req)));;;
  let context := update (aquire_csrf req) context in
  stop_active_games_for_player p;;;
  st <- get_state;;
  (if bool_decide (is_Some (s_game (session st)))
   then modify (set_session pop_game) else ret tt);;;
  st <- get_state;;
  (if bool_decide (is_Some (s_click (session st)))
   then modify (set_session pop_click) else ret tt);;;
  let seed := uuid_b req in
  let dimensions := [2; 3] in
  rows <- list_index dimensions 0;;
  cols <- list_index dimensions 1;;
  st <- get_state;;
  let game_pk := next_pk (games st) in
  save_game game_pk
    (new_game p seed (generate_play_field rows cols seed) (now req));;;
  modify (set_session (set_game game_pk));;;
  game_context <- get_game_context dimensions;;
  ret (update game_context context).

(** [ContestHighscoreView.get_context_data]; the last assignment unpacks
    the sliced answer into two names. *)
Definition highscore_get_context_data : M (gmap string value) :=
  let context : gmap string value := ∅ in
  st <- get_state;;
  p <- or_raise (s_player (session st)) (KeyError "player");;
  let context := <["player" := VStr p]> context in
  let context :=
    <["best_score" := get_player_best_score (games st) p]> context in
  let context :=
    <["highscores" := VList (take 5 (get_highscores (games st)))]> context in
  match take 5 (get_unique_highscores (games st)) with
  | [unique; _] => ret (<["unique_highscores" := unique]> context)
  | _ => raise ValueError
  end.

End Views.

(** ** Sessions across requests *)

Definition empty_session : Session := mkSession None None None None None.

(** A site: the tables and the session store, one session per cookie. *)
Record Site : Type := mkSite {
  site_state : State;
  sessions : gmap nat Session
}.

Definition empty_state : State := mkState ∅ ∅ ∅ empty_session.

Definition empty_site : Site := mkSite empty_state ∅.

(** The session middleware around a handler: the session of the cookie is
    loaded, the handler runs, and the session is stored back unless the
    handler raised (an uncaught exception becomes a 500 response, for which
    the middleware does not save).  The tables keep every write. *)
Definition request_state (cookie : nat) (site : Site) : State :=
  set_session (λ _, default empty_session (sessions site !! cookie))
              (site_state site).

Definition serve {A} (cookie : nat) (h : M A) (site : Site) : result A * Site :=
  match h (request_state cookie site) with
  | (Ok a, st) => (Ok a, mkSite st (<[cookie := session st]> (sessions site)))
  | (Raised e, st) => (Raised e, mkSite st (sessions site))
  end.

(** ** A sample configuration

    Used to run the handlers on concrete requests: two players, card ids
    laid out row by row, the share of matched turns as score. *)
Definition sample_play_field (rows cols : Z) (sd : string) : list (list Z) :=
  (λ r : nat, (λ c : nat, (Z.of_nat (r * Z.to_nat cols + c) `mod` ((rows * cols) `div` 2)) + 1)
                <$> seq 0 (Z.to_nat cols)) <$> seq 0 (Z.to_nat rows).

Definition sample_score (t : Z) (ts : gmap Z Turn) (pk : Z) (g : Game) : Q :=
  Z.of_nat (size (matched_turns ts pk)) # Pos.of_nat (size (game_turns ts pk)).

#[local] Instance sample : Collaborators := {|
  USER_EMAILS := ["ann@example.org"; "bob@example.org"];
  static := λ path, "/static/" +:+ path;
  generate_play_field := sample_play_field;
  calculate_score := sample_score;
  is_game_suspected := λ _ _ _, false;
  get_player_best_score := λ _ _, VDec 0;
  get_highscores := λ _, [];
  get_unique_highscores := λ _, [VList []; VInt 0]
|}.

(** ** Predicates used in the statements *)

(** A computation that reads the state at most. *)
Definition pure {A} (m : M A) : Prop := ∀ st, (m st).2 = st.

(** The text is a JSON object whose [row] and [column] are the coordinates
    of a cell of the game's playfield, holding [card]. *)
Definition names_cell (g : Game) (t : text) (r col card : Z) : Prop :=
  ∃ items cells,
    t = Enc (VDict items) ∧
    dict_get "row" items = Some (VInt r) ∧
    dict_get "column" items = Some (VInt col) ∧
    0 ≤ r ∧ 0 ≤ col ∧
    playfield g !! Z.to_nat r = Some cells ∧
    cells !! Z.to_nat col = Some card.

(** The key under which the second click saves its Turn. *)
Definition turn_pk (game_id : Z) (s : Session) : Z :=
  default (game_id * 10 + 1) (s_turn s).

(** The state once the second click has saved the Turn, moved the session's
    counter and cleared the pending click. *)
Definition resolved (req : Request) (game_id : Z) (game : Game)
    (got : value * bool) (st : State) : State :=
  set_games (insert game_id (update_turn game false (Enc (VDict []))))
    (set_session (set_turn_counter (turn_pk game_id (session st) + 1))
       (set_turns (insert (turn_pk game_id (session st))
                          (mkTurn game_id got.1 got.2 (now req))) st)).

(** The response context of the second click before the game is checked for
    completion. *)
Definition click_context (req : Request) (got : value * bool)
  : gmap string value :=
  update (<["match" := VBool got.2]> {[ "click" := got.1 ]})
         (update (aquire_csrf req) {[ "success" := VBool true ]}).

(** The last lines of [post]: the token is forced. *)
Definition freshen (context : gmap string value) : gmap string value :=
  match context !! "csrf_token" with
  | Some token => update {[ "csrf_token" := smart_text token ]} context
  | None => context
  end.

(** The number of cells of the playfield, as [game_completed] counts them:
    rows times the length of the first row. *)
Definition cells (g : Game) : Z :=
  Z.of_nat (length (playfield g)) * Z.of_nat (length (default [] (head (playfield g)))).

(** Active and unfinished. *)
Definition live (g : Game) : bool := active g && negb (finished g).

(** [game_completed]'s comparison: the matched turns against half the
    cells. *)
Definition enough_matches (ts : gmap Z Turn) (pk : Z) (g : Game) : bool :=
  Qeq_bool (inject_Z (Z.of_nat (size (matched_turns ts pk)))) (cells g # 2).

(** The average [close_game] computes from the game's last turn [lt]. *)
Definition average_turn_time (ts : gmap Z Turn) (pk : Z) (g : Game) (lt : Turn)
  : spec_float :=
  total_seconds (divide_and_round (turn_created lt - created g)
                                  (Z.of_nat (size (game_turns ts pk)))).

Section Closing.
Context `{Collaborators}.

(** The row [close_game] saves, and the state it leaves. *)
Definition closed_game (req : Request) (ts : gmap Z Turn) (pk : Z) (g : Game)
    (lt : Turn) : Game :=
  set_finished (end_game g (calculate_score (now req) ts pk g)
                           (average_turn_time ts pk g lt)).

Definition closed (req : Request) (pk : Z) (g : Game) (lt : Turn) (st : State)
  : State :=
  let g' := closed_game req (turns st) pk g lt in
  let st' := set_games (insert pk g') (set_session pop_game st) in
  if is_game_suspected (turns st) pk g'
  then set_suspected (union {[ pk ]}) st' else st'.

Definition completion_context (req : Request) (ts : gmap Z Turn) (pk : Z)
    (g : Game) (lt : Turn) (context : gmap string value) : gmap string value :=
  update (<["score" := VDec (score (closed_game req ts pk g lt))]>
            {[ "completed" := VBool true ]}) context.

End Closing.

(** The game with its pending click cleared, as the second click saves
    it. *)
Definition cleared (g : Game) : Game := update_turn g false (Enc (VDict [])).

(** The [click] and [match] entries of the second click's response. *)
Definition the_click (got : value * bool) : gmap string value :=
  <["match" := VBool got.2]> {[ "click" := got.1 ]}.

(** The cell a click text names on the game's playfield, with its card. *)
Definition cell_of (g : Game) (t : text) : option (Z * Z * Z) :=
  match t with
  | Enc (VDict items) =>
      match dict_get "row" items, dict_get "column" items with
      | Some (VInt r), Some (VInt col) =>
          if bool_decide (0 ≤ r) && bool_decide (0 ≤ col) then
            row ← playfield g !! Z.to_nat r;
            card ← row !! Z.to_nat col;
            Some (r, col, card)
          else None
      | _, _ => None
      end
  | _ => None
  end.

(** The request is one the play endpoint is written for: a session that
    binds a game also holds the player, and when the game is found the
    posted click, and the pending click if there is one, name a cell. *)
Definition click_ready (req : Request) (st : State) : bool :=
  match s_game (session st) with
  | None => true
  | Some game_id =>
      match s_player (session st) with
      | None => false
      | Some p =>
          match Game_objects_get game_id p st with
          | None => true
          | Some game =>
              bool_decide (is_Some (POST_click req ≫= cell_of game)) &&
              (negb (open_turn game)
               || bool_decide (is_Some (cell_of game (hold_card game))))
          end
      end
  end.

(** ** Concrete requests and states *)

Definition click_at (r col : Z) : text :=
  Enc (VDict [("row", VInt r); ("column", VInt col)]).

(** A request at time [t] (microseconds) posting [click]. *)
Definition request_at (t : Z) (click : option text) (pick : nat) : Request :=
  mkRequest click "Zk3vQ9" t pick "0f8fad5bd9cb469fa16570867728950e"
            "7c9e6679742540de944be07fc1f90ae7".

(** A game of ann on the 2 by 3 board, created at second 1. *)
Definition ann : string := "ann@example.org".

Definition board : list (list Z) := [[1; 2; 3]; [1; 2; 3]].

Definition ann_game (pending : bool) (held : text) : Game :=
  mkGame ann board "7c9e6679742540de944be07fc1f90ae7" true false 0
         (S754_zero false) 1000000 pending held.

Definition ann_session (counter : option Z) : Session :=
  mkSession (Some ann) (Some "0f8fad5bd9cb469fa16570867728950e") (Some 1) None
            counter.

(** Ann's game just after the start endpoint, and after her first click on
    the cell (0, 0). *)
Definition fresh_state : State :=
  mkState {[ 1 := ann_game false (Enc (VDict [])) ]} ∅ ∅ (ann_session None).

Definition pending_state : State :=
  mkState {[ 1 := ann_game true (click_at 0 0) ]} ∅ ∅ (ann_session None).

(** ** Sequences of requests *)

(** A request to one of the three endpoints, with the cookie of its
    session. *)
Inductive call : Type :=
  | Start (cookie : nat) (req : Request)
  | Play (cookie : nat) (req : Request)
  | Highscore (cookie : nat).

Section Runs.
Context `{Collaborators}.

Definition handle (site : Site) (c : call) : Site :=
  match c with
  | Start cookie req => (serve cookie (get_context_data req) site).2
  | Play cookie req => (serve cookie (post req) site).2
  | Highscore cookie => (serve cookie highscore_get_context_data site).2
  end.

Definition run (calls : list call) (site : Site) : Site :=
  foldl handle site calls.

End Runs.

(** At most one active, unfinished game per player. *)
Definition one_live_game (gs : gmap Z Game) : Prop :=
  ∀ k1 k2 g1 g2,
    gs !! k1 = Some g1 → gs !! k2 = Some g2 →
    player g1 = player g2 → live g1 = true → live g2 = true → k1 = k2.

(** A state with two matched turns of ann's game and a click pending on
    the cell (0, 2): the next click decides the last pair. *)
Definition matched_turn (r1 c1 r2 c2 card t : Z) : Turn :=
  mkTurn 1 (VList [VDict [("row", VInt r1); ("column", VInt c1); ("card", VInt card)];
                   VDict [("row", VInt r2); ("column", VInt c2); ("card", VInt card)]])
         true t.

Definition last_pair_state : State :=
  mkState {[ 1 := ann_game true (click_at 0 2) ]}
          (<[12 := matched_turn 0 1 1 1 2 5000000]>
             {[ 11 := matched_turn 0 0 1 0 1 3000000 ]})
          ∅ (ann_session (Some 13)).

(** ** Two sessions on one site *)

(** A round of the session [cookie]: the clicks on the cells (0, 0) and
    (0, 1), whose cards differ on the sample board. *)
Definition round (cookie : nat) (t : Z) : list call :=
  [ Play cookie (request_at t (Some (click_at 0 0)) 0);
    Play cookie (request_at (t + 1000000) (Some (click_at 0 1)) 0) ].

(** Ann starts a game in session 0 and plays ten rounds without a match;
    bob starts a game in session 1 and plays one round; ann clicks again.
    Her next click resolves her eleventh round. *)
Definition crowded_site : Site :=
  run ([Start 0 (request_at 1000000 None 0)]
       ++ concat ((λ i : nat, round 0 (2000000 * (Z.of_nat i + 1))) <$> seq 0 10)
       ++ [Start 1 (request_at 30000000 None 1)]
       ++ round 1 31000000
       ++ [Play 0 (request_at 40000000 (Some (click_at 0 0)) 0)])
      empty_site.


(** The last pair of ann's game: her click on the cell (1, 2); and the site
    once that click has finished the game. *)
Definition last_click : Request := request_at 7000000 (Some (click_at 1 2)) 0.

Definition finished_site : Site :=
  (serve 0 (post last_click)
     (mkSite last_pair_state {[ 0%nat := ann_session (Some 13) ]})).2.

(** The state the eleventh round of ann meets, and its second click. *)
Definition crowded_state : State := request_state 0 crowded_site.

Definition eleventh_click : Request :=
  request_at 41000000 (Some (click_at 0 1)) 0.

(** ** Further concrete inputs *)

(** A game on a playfield of one row of three cells. *)
Definition strip_game : Game :=
  mkGame ann [[1; 2; 1]] "7c9e6679742540de944be07fc1f90ae7" true false 0
         (S754_zero false) 1000000 false (Enc (VDict [])).

(** The sample configuration with an empty pool of players. *)
Definition nobody : Collaborators := {|
  USER_EMAILS := [];
  static := λ path, "/static/" +:+ path;
  generate_play_field := sample_play_field;
  calculate_score := sample_score;
  is_game_suspected := λ _ _ _, false;
  get_player_best_score := λ _ _, VDec 0;
  get_highscores := λ _, [];
  get_unique_highscores := λ _, [VList []; VInt 0]
|}.

(** Ann's finished game, with a session that still binds it. *)
Definition stale_state : State :=
  set_session (λ _, ann_session (Some 14)) (site_state finished_site).

(** ** A second start for the same player *)

(** Ann has started a game in session 0. *)
Definition started_site : Site :=
  run [Start 0 (request_at 1000000 None 0)] empty_site.

(** Ann is drawn again in session 1, and clicks there. *)
Definition second_start : list call :=
  [ Start 1 (request_at 20000000 None 0);
    Play 1 (request_at 21000000 (Some (click_at 0 0)) 0) ].

(** The rational a finite float stands for. *)
Definition SF2Q (f : spec_float) : option Q :=
  match f with
  | S754_zero _ => Some 0%Q
  | S754_finite s m e =>
      Some (inject_Z (if s then Zneg m else Zpos m) * Qpower 2 e)%Q
  | _ => None
  end.

(** ** Running the monad *)

Lemma bind_Ok {A B} (m : M A) (k : A → M B) st a st1 :
  m st = (Ok a, st1) → bind m k st = k a st1.
Proof. unfold bind. by intros ->. Qed.

Lemma bind_Raised {A B} (m : M A) (k : A → M B) st e st1 :
  m st = (Raised e, st1) → bind m k st = (Raised e, st1).
Proof. unfold bind. by intros ->. Qed.

Lemma bind_Ok_inv {A B} (m : M A) (k : A → M B) st b st' :
  bind m k st = (Ok b, st') →
  ∃ a st1, m st = (Ok a, st1) ∧ k a st1 = (Ok b, st').
Proof.
  unfold bind. destruct (m st) as [[a|e] st1]; [eauto | discriminate].
Qed.

Lemma pure_ret {A} (a : A) : pure (ret a).
Proof. by intros st. Qed.

Lemma pure_raise {A} e : pure (@raise A e).
Proof. by intros st. Qed.

Lemma pure_or_raise {A} (o : option A) e : pure (or_raise o e).
Proof. destruct o; [apply pure_ret | apply pure_raise]. Qed.

Lemma pure_get_state : pure get_state.
Proof. by intros st. Qed.

Lemma pure_bind {A B} (m : M A) (k : A → M B) :
  pure m → (∀ a, pure (k a)) → pure (bind m k).
Proof.
  intros Hm Hk st. unfold bind. specialize (Hm st).
  destruct (m st) as [[a|e] st1]; simpl in *; subst; [apply Hk | done].
Qed.

Lemma pure_json_loads t : pure (json_loads t).
Proof. destruct t; [apply pure_ret | apply pure_raise]. Qed.

Lemma pure_subscript v k : pure (subscript v k).
Proof. destruct v; try apply pure_raise. apply pure_or_raise. Qed.

Lemma pure_list_index {A} (l : list A) i : pure (list_index l i).
Proof.
  unfold list_index. case_bool_decide; [apply pure_or_raise | apply pure_raise].
Qed.

Create HintDb pure discriminated.
#[local] Hint Resolve pure_ret pure_raise pure_or_raise pure_get_state
  pure_json_loads pure_subscript pure_list_index : pure.

Lemma pure_get_card_id g c : pure (get_card_id g c).
Proof.
  unfold get_card_id. repeat (apply pure_bind; [auto with pure | intros]).
  repeat case_match; try apply pure_raise.
  apply pure_bind; auto with pure.
Qed.

Lemma pure_revealed c card : pure (revealed c card).
Proof.
  unfold revealed. repeat (apply pure_bind; [auto with pure | intros]).
  apply pure_ret.
Qed.

Lemma pure_match_ g c1 c2 : pure (match_ g c1 c2).
Proof.
  unfold match_.
  repeat (apply pure_bind;
          [auto using pure_get_card_id, pure_revealed with pure | intros]).
  apply pure_ret.
Qed.

Lemma pure_game_completed pk g : pure (game_completed pk g).
Proof.
  unfold game_completed. repeat (apply pure_bind; [auto with pure | intros]).
  case_match; apply pure_ret.
Qed.

Lemma pure_timedelta_div d n : pure (timedelta_div d n).
Proof.
  unfold timedelta_div. case_bool_decide; [apply pure_raise | apply pure_ret].
Qed.

#[local] Hint Resolve pure_get_card_id pure_revealed pure_match_
  pure_game_completed pure_timedelta_div : pure.

(** A bound pure computation either hands its value on or raises, the
    state untouched. *)
Lemma bind_pure_inv {A B} (m : M A) (k : A → M B) st r st' :
  bind m k st = (r, st') → pure m →
  (∃ a, m st = (Ok a, st) ∧ k a st = (r, st')) ∨
  (∃ e, m st = (Raised e, st) ∧ r = Raised e ∧ st' = st).
Proof.
  unfold bind. intros Hrun Hm. specialize (Hm st).
  destruct (m st) as [[a|e] st1]; simpl in Hm; subst st1.
  - left. eauto.
  - right. injection Hrun as <- <-. eauto.
Qed.

(** Binding a state update. *)
Lemma bind_Ok_inv' {B} (f : State → State) (k : unit → M B) st r st' :
  bind (modify f) k st = (r, st') → True ∧ k tt (f st) = (r, st').
Proof. unfold bind, modify. auto. Qed.

(** The outcome of a pure computation does not move the state. *)
Lemma pure_run {A} (m : M A) st r st' : pure m → m st = (r, st') → st' = st.
Proof. intros Hm Hr. specialize (Hm st). by rewrite Hr in Hm. Qed.

Lemma list_index_Some {A} (l : list A) i x st :
  0 ≤ i → l !! Z.to_nat i = Some x → list_index l i st = (Ok x, st).
Proof.
  intros Hi Hx. unfold list_index. rewrite bool_decide_true by done.
  by rewrite Hx.
Qed.

Lemma get_card_id_cell g items r col card st :
  names_cell g (Enc (VDict items)) r col card →
  get_card_id g (VDict items) st = (Ok card, st).
Proof.
  intros (items' & cells & [= <-] & Hr & Hc & ? & ? & Hcells & Hcard).
  unfold get_card_id, subscript, bind. rewrite Hr, Hc. simpl.
  rewrite (list_index_Some _ _ cells) by done.
  by apply list_index_Some.
Qed.

Lemma revealed_cell g items r col card k st :
  names_cell g (Enc (VDict items)) r col card →
  revealed (VDict items) k st =
    (Ok (VDict [("row", VInt r); ("column", VInt col); ("card", VInt k)]), st).
Proof.
  intros (items' & cells & [= <-] & Hr & Hc & _).
  unfold revealed, subscript, bind. by rewrite Hr, Hc.
Qed.

Lemma match_cells g i1 i2 r1 c1 k1 r2 c2 k2 st :
  names_cell g (Enc (VDict i1)) r1 c1 k1 →
  names_cell g (Enc (VDict i2)) r2 c2 k2 →
  match_ g (VDict i1) (VDict i2) st =
    (Ok (VList [VDict [("row", VInt r1); ("column", VInt c1); ("card", VInt k1)];
                VDict [("row", VInt r2); ("column", VInt c2); ("card", VInt k2)]],
         bool_decide (k1 = k2)), st).
Proof.
  intros H1 H2. unfold match_.
  rewrite (bind_Ok _ _ _ _ _ (get_card_id_cell _ _ _ _ _ st H1)).
  rewrite (bind_Ok _ _ _ _ _ (get_card_id_cell _ _ _ _ _ st H2)).
  rewrite (bind_Ok _ _ _ _ _ (revealed_cell _ _ _ _ _ k1 st H1)).
  by rewrite (bind_Ok _ _ _ _ _ (revealed_cell _ _ _ _ _ k2 st H2)).
Qed.

Section Properties.
Context `{collaborators : Collaborators}.

(** ** The branches of [post] *)

Lemma post_no_game req st :
  s_game (session st) = None →
  post req st = (Ok (mkResponse {[ "success" := VBool false ]} 500), st).
Proof. intros Hg. unfold post, bind, get_state. by rewrite Hg. Qed.

Lemma post_no_player req st game_id :
  s_game (session st) = Some game_id →
  s_player (session st) = None →
  post req st = (Raised (KeyError "player"), st).
Proof. intros Hg Hp. unfold post, bind, get_state. by rewrite Hg, Hp. Qed.

Lemma post_not_found req st game_id p :
  s_game (session st) = Some game_id →
  s_player (session st) = Some p →
  Game_objects_get game_id p st = None →
  post req st =
    (Ok (mkResponse (<["msg" := VStr "No active game session found."]>
                       {[ "success" := VBool false ]}) 404), st).
Proof.
  intros Hg Hp Hget. unfold post, bind, get_state. rewrite Hg, Hp. simpl.
  by rewrite Hget.
Qed.

Lemma post_found req st game_id p game :
  s_game (session st) = Some game_id →
  s_player (session st) = Some p →
  Game_objects_get game_id p st = Some game →
  post req st =
    if negb (open_turn game) then first_click req game_id game st
    else second_click req game_id game
           (update (aquire_csrf req) {[ "success" := VBool true ]}) st.
Proof.
  intros Hg Hp Hget. unfold post, bind, get_state. rewrite Hg, Hp. simpl.
  rewrite Hget. by destruct (open_turn game).
Qed.

Lemma Game_objects_get_Some pk p st g :
  Game_objects_get pk p st = Some g ↔
  games st !! pk = Some g ∧ player g = p ∧ active g = true ∧ finished g = false.
Proof.
  unfold Game_objects_get.
  destruct (games st !! pk) as [g'|]; [|by split; [|intros [? _]]].
  destruct (bool_decide (player g' = p) && active g' && negb (finished g'))
    eqn:E.
  - rewrite !andb_true_iff, bool_decide_eq_true, negb_true_iff in E.
    destruct E as [[Hp Ha] Hf].
    split; [by intros [= <-] | by intros ([= <-] & _)].
  - split; [done|]. intros ([= ->] & Hp & Ha & Hf).
    rewrite Ha, Hf, bool_decide_true in E by done. done.
Qed.

(** ** The first click *)

Ltac unchanged := simpl; repeat split; auto.

Lemma first_click_cell req game_id game st t r col card :
  POST_click req = Some t →
  names_cell game t r col card →
  first_click req game_id game st =
    (Ok (mkResponse
           (<["click" := VList [VDict [("row", VInt r); ("column", VInt col);
                                       ("card", VInt card)]]]>
              {[ "success" := VBool true ]}) 200),
     set_games (insert game_id (update_turn game true t)) st).
Proof.
  intros Ht Hcell. destruct (Hcell) as (items & cs & -> & Hr & Hc & _).
  unfold first_click. rewrite Ht. simpl.
  unfold bind at 1. simpl. unfold bind at 1. simpl.
  rewrite (bind_Ok _ _ _ _ _ (get_card_id_cell _ _ _ _ _ st Hcell)).
  unfold bind, save_game, modify, subscript. simpl. by rewrite Hr, Hc.
Qed.

(** Whatever the first click does, it writes no Turn, and the Game table
    changes at most by marking the click as pending on the game. *)
Lemma first_click_effect req game_id game st r st' :
  first_click req game_id game st = (r, st') →
  turns st' = turns st ∧ session st' = session st ∧
  suspected st' = suspected st ∧
  (games st' = games st ∨
   ∃ t, POST_click req = Some t ∧
        games st' = <[game_id := update_turn game true t]> (games st)).
Proof.
  unfold first_click. intros Hrun.
  apply bind_pure_inv in Hrun as [(t & Ht & Hrun)|(e & _ & _ & ->)];
    [|by unchanged|auto with pure].
  destruct (POST_click req) as [t'|]; [|discriminate]. injection Ht as ->.
  apply bind_pure_inv in Hrun as [(c & _ & Hrun)|(e & _ & _ & ->)];
    [|by unchanged|auto with pure].
  apply bind_pure_inv in Hrun as [(card & _ & Hrun)|(e & _ & _ & ->)];
    [|by unchanged|auto with pure].
  apply bind_Ok_inv' in Hrun as [_ Hrun].
  set (st1 := set_games _ st) in Hrun.
  apply bind_pure_inv in Hrun as [(row & _ & Hrun)|(e & _ & _ & ->)];
    [|unchanged; eauto|auto with pure].
  apply bind_pure_inv in Hrun as [(col & _ & Hrun)|(e & _ & _ & ->)];
    [|unchanged; eauto|auto with pure].
  injection Hrun as _ <-. unchanged; eauto.
Qed.

Lemma first_click_Ok req game_id game st resp st' :
  first_click req game_id game st = (Ok resp, st') →
  ∃ t c1,
    POST_click req = Some t ∧
    st' = set_games (insert game_id (update_turn game true t)) st ∧
    resp = mkResponse (<["click" := VList [c1]]> {[ "success" := VBool true ]}) 200.
Proof.
  unfold first_click. intros Hrun.
  apply bind_pure_inv in Hrun as [(t & Ht & Hrun)|(e & _ & [=] & _)];
    [|auto with pure].
  destruct (POST_click req) as [t'|]; [|discriminate]. injection Ht as ->.
  apply bind_pure_inv in Hrun as [(c & _ & Hrun)|(e & _ & [=] & _)];
    [|auto with pure].
  apply bind_pure_inv in Hrun as [(card & _ & Hrun)|(e & _ & [=] & _)];
    [|auto with pure].
  apply bind_Ok_inv' in Hrun as [_ Hrun].
  apply bind_pure_inv in Hrun as [(row & _ & Hrun)|(e & _ & [=] & _)];
    [|auto with pure].
  apply bind_pure_inv in Hrun as [(col & _ & Hrun)|(e & _ & [=] & _)];
    [|auto with pure].
  injection Hrun as <- <-. eauto.
Qed.

(** ** Completion *)

Lemma cells_head g row0 :
  playfield g !! 0%nat = Some row0 →
  cells g = Z.of_nat (length (playfield g)) * Z.of_nat (length row0).
Proof. unfold cells. destruct (playfield g); [done|]. by intros [= ->]. Qed.

Lemma game_completed_run pk g st :
  game_completed pk g st =
    (match playfield g with
     | [] => Raised IndexError
     | _ => Ok (enough_matches (turns st) pk g)
     end, st).
Proof.
  unfold game_completed, bind, get_state, list_index, enough_matches, cells.
  simpl. destruct (playfield g) as [|row0 rows]; simpl; [done|].
  by destruct (Qeq_bool _ _).
Qed.

Lemma close_game_run req pk g context st :
  close_game req pk g context st =
    match last (game_turns (turns st) pk) with
    | None => (Raised (AttributeError "created"), set_session pop_game st)
    | Some lt =>
        if bool_decide (Z.of_nat (size (game_turns (turns st) pk)) = 0)
        then (Raised ZeroDivisionError, set_session pop_game st)
        else (Ok (completion_context req (turns st) pk g lt context),
              closed req pk g lt st)
    end.
Proof.
  unfold close_game, bind, modify, get_state, save_game, timedelta_div. simpl.
  destruct (last _) as [lt|]; simpl; [|done].
  case_bool_decide; simpl; [done|].
  unfold closed, closed_game, average_turn_time. simpl.
  by destruct (is_game_suspected _ _ _).
Qed.

(** A game that has a turn has a last turn. *)
Lemma last_is_Some (ts : gmap Z Turn) k t : ts !! k = Some t → is_Some (last ts).
Proof.
  intros Hk. unfold last.
  destruct (map_to_list ts) as [|kt l] eqn:Hl.
  - apply map_to_list_empty_iff in Hl. subst ts. by rewrite lookup_empty in Hk.
  - simpl. unfold later. destruct (foldr _ _ l) as [[k' t']|]; simpl;
      [case_bool_decide|]; eauto.
Qed.

Lemma later_greatest (l : list (Z * Turn)) k t :
  foldr later None l = Some (k, t) →
  (k, t) ∈ l ∧ ∀ k' t', (k', t') ∈ l → k' ≤ k.
Proof.
  revert k t. induction l as [|[k0 t0] l IH]; intros k t; simpl; [done|].
  destruct (foldr later None l) as [[k1 t1]|] eqn:Hfold; simpl.
  - destruct (IH k1 t1 eq_refl) as [Hin Hmax].
    case_bool_decide as Hlt; intros [= <- <-].
    + split; [apply list_elem_of_here|].
      intros k' t' [[= -> ->]|Hin']%elem_of_cons; [lia|].
      specialize (Hmax _ _ Hin'). lia.
    + split; [by apply list_elem_of_further|].
      intros k' t' [[= -> ->]|Hin']%elem_of_cons; [lia|].
      by apply (Hmax _ t').
  - intros [= <- <-]. destruct l as [|[k2 t2] l]; simpl in Hfold.
    + split; [apply list_elem_of_here|].
      intros k' t' [[= -> ->]|Hin']%elem_of_cons; [lia|].
      by apply elem_of_nil in Hin'.
    + unfold later in Hfold. destruct (foldr _ _ l) as [[k3 t3]|];
        [case_bool_decide|]; discriminate.
Qed.

(** [last] is the row under the greatest key. *)
Lemma last_greatest (ts : gmap Z Turn) t :
  last ts = Some t →
  ∃ k, ts !! k = Some t ∧ ∀ k' t', ts !! k' = Some t' → k' ≤ k.
Proof.
  unfold last. destruct (foldr later None (map_to_list ts)) as [[k t0]|] eqn:Hf;
    [|done].
  intros [= <-]. apply later_greatest in Hf as [Hin Hmax]. exists k. split.
  - by apply elem_of_map_to_list.
  - intros k' t' Hk'. apply (Hmax k' t'). by apply elem_of_map_to_list.
Qed.

Lemma size_non_zero (ts : gmap Z Turn) k t :
  ts !! k = Some t → Z.of_nat (size ts) ≠ 0.
Proof.
  intros Hk Hz. assert (size ts = 0%nat) as Hs by lia.
  apply map_size_empty_iff in Hs. subst ts. by rewrite lookup_empty in Hk.
Qed.

(** The turn of a game is among the game's turns once it is saved. *)
Lemma game_turns_saved (ts : gmap Z Turn) k t :
  game_turns (<[k := t]> ts) (turn_game t) !! k = Some t.
Proof.
  unfold game_turns. apply map_lookup_filter_Some. split; [|done].
  apply lookup_insert_eq.
Qed.

(** ** The second click *)

Lemma bind_ret {A B} (a : A) (k : A → M B) st : bind (ret a) k st = k a st.
Proof. done. Qed.

Lemma bind_modify {B} f (k : unit → M B) st :
  bind (modify f) k st = k tt (f st).
Proof. done. Qed.

Lemma bind_get_state {B} (k : State → M B) st : bind get_state k st = k st st.
Proof. done. Qed.

Lemma bind_when {B} (b : bool) f (k : unit → M B) st :
  bind (if b then modify f else ret tt) k st = k tt (if b then f st else st).
Proof. by destruct b. Qed.

(** The second click, from the point where both clicks are decoded and
    matched. *)
Lemma second_click_resolved req game_id game context st c1 c2 got :
  hold_card game = Enc c1 →
  POST_click req = Some (Enc c2) →
  match_ game c1 c2 st = (Ok got, st) →
  second_click req game_id game context st =
    let st1 := resolved req game_id game got st in
    match playfield game with
    | [] => (Raised IndexError, st1)
    | _ =>
        if enough_matches (turns st1) game_id (cleared game) then
          match close_game req game_id (cleared game)
                  (update (the_click got) context) st1 with
          | (Ok c, st2) => (Ok (mkResponse (freshen c) 200), st2)
          | (Raised e, st2) => (Raised e, st2)
          end
        else (Ok (mkResponse (freshen (update (the_click got) context)) 200), st1)
    end.
Proof.
  intros Hhold Hpost Hmatch. unfold second_click.
  rewrite Hhold, Hpost. unfold json_loads, or_raise. rewrite !bind_ret.
  rewrite (bind_Ok _ _ _ _ _ Hmatch).
  rewrite bind_get_state. unfold save_turn, save_game.
  rewrite !bind_modify. fold (turn_pk game_id (session st)).
  fold (cleared game). fold (the_click got).
  change (set_games _ (set_session _ (set_turns _ st)))
    with (resolved req game_id game got st).
  set (st1 := resolved _ _ _ _ _).
  unfold bind at 1. rewrite game_completed_run.
  change (playfield (cleared game)) with (playfield game).
  destruct (playfield game) as [|row0 rows]; [done|].
  destruct (enough_matches _ _ _); [|done].
  unfold bind. by destruct (close_game _ _ _ _ _) as [[c|e] st2].
Qed.

(** The outcomes of the second click short of that point leave the state
    alone. *)
Lemma second_click_cases req game_id game context st r st' :
  second_click req game_id game context st = (r, st') →
  (∃ e, r = Raised e ∧ st' = st) ∨
  ∃ c1 c2 got, hold_card game = Enc c1 ∧ POST_click req = Some (Enc c2) ∧
               match_ game c1 c2 st = (Ok got, st).
Proof.
  intros Hrun. unfold second_click in Hrun.
  apply bind_pure_inv in Hrun as [(c1 & Hc1 & Hrun)|(e & _ & -> & ->)];
    [|by eauto|auto with pure].
  apply bind_pure_inv in Hrun as [(t & Ht & Hrun)|(e & _ & -> & ->)];
    [|by eauto|auto with pure].
  apply bind_pure_inv in Hrun as [(c2 & Hc2 & Hrun)|(e & _ & -> & ->)];
    [|by eauto|auto with pure].
  apply bind_pure_inv in Hrun as [(got & Hgot & Hrun)|(e & _ & -> & ->)];
    [|by eauto|auto with pure].
  right. exists c1, c2, got.
  destruct (hold_card game); [|discriminate]. injection Hc1 as ->.
  destruct (POST_click req) as [t'|]; [|discriminate]. injection Ht as ->.
  destruct t; [|discriminate]. injection Hc2 as ->. done.
Qed.

Lemma second_click_cells req game st t1 r1 c1 k1 t2 r2 c2 k2 :
  hold_card game = t1 → names_cell game t1 r1 c1 k1 →
  POST_click req = Some t2 → names_cell game t2 r2 c2 k2 →
  ∃ i1 i2,
    hold_card game = Enc (VDict i1) ∧ POST_click req = Some (Enc (VDict i2)) ∧
    match_ game (VDict i1) (VDict i2) st =
      (Ok (VList [VDict [("row", VInt r1); ("column", VInt c1); ("card", VInt k1)];
                  VDict [("row", VInt r2); ("column", VInt c2); ("card", VInt k2)]],
           bool_decide (k1 = k2)), st).
Proof.
  intros <- H1 Hp H2.
  destruct (H1) as (i1 & ? & Hi1 & _). destruct (H2) as (i2 & ? & -> & _).
  rewrite Hi1 in H1. exists i1, i2. split_and!; [done..|].
  by apply match_cells.
Qed.

(** ** Reading the response *)

Lemma freshen_lookup_ne (context : gmap string value) k :
  k ≠ "csrf_token" → freshen context !! k = context !! k.
Proof.
  intros Hk. unfold freshen, update. destruct (context !! "csrf_token"); [|done].
  rewrite lookup_union, lookup_singleton_ne by done.
  by destruct (context !! k).
Qed.

Lemma freshen_lookup_token (context : gmap string value) :
  freshen context !! "csrf_token" = smart_text <$> context !! "csrf_token".
Proof.
  unfold freshen, update. destruct (context !! "csrf_token") as [v|] eqn:Hv.
  - rewrite lookup_union, lookup_singleton_eq. by rewrite Hv.
  - by rewrite Hv.
Qed.

Lemma click_context_lookup req got k :
  click_context req got !! k =
    if bool_decide (k = "match") then Some (VBool got.2)
    else if bool_decide (k = "click") then Some got.1
    else if bool_decide (k = "csrf_token") then Some (VLazy (csrf_token req))
    else if bool_decide (k = "success") then Some (VBool true)
    else None.
Proof.
  unfold click_context, update, aquire_csrf. rewrite !lookup_union.
  repeat case_bool_decide; subst; simplify_map_eq; done.
Qed.

Lemma completion_context_lookup req ts pk g lt context k :
  completion_context req ts pk g lt context !! k =
    if bool_decide (k = "score")
    then Some (VDec (score (closed_game req ts pk g lt)))
    else if bool_decide (k = "completed") then Some (VBool true)
    else context !! k.
Proof.
  unfold completion_context, update. rewrite lookup_union.
  repeat case_bool_decide; subst; simplify_map_eq; try done;
    by match goal with |- _ ∪ ?o = _ => destruct o end.
Qed.

Lemma completing_answer req ts pk g lt context :
  freshen (completion_context req ts pk g lt context) !! "completed" =
    Some (VBool true) ∧
  freshen (completion_context req ts pk g lt context) !! "score" =
    Some (VDec (score (closed_game req ts pk g lt))).
Proof.
  by rewrite !freshen_lookup_ne, !completion_context_lookup by done.
Qed.

Lemma plain_answer req got :
  freshen (click_context req got) !! "completed" = None ∧
  freshen (click_context req got) !! "score" = None ∧
  freshen (click_context req got) !! "match" = Some (VBool got.2) ∧
  freshen (click_context req got) !! "click" = Some got.1 ∧
  freshen (click_context req got) !! "success" = Some (VBool true) ∧
  freshen (click_context req got) !! "csrf_token" =
    Some (VStr (csrf_token req)).
Proof.
  rewrite freshen_lookup_token.
  by rewrite !freshen_lookup_ne, !click_context_lookup by done.
Qed.

(** ** The comparison of [game_completed] *)

Lemma enough_matches_Z ts pk g :
  enough_matches ts pk g = true ↔
  2 * Z.of_nat (size (matched_turns ts pk)) = cells g.
Proof.
  unfold enough_matches. rewrite Qeq_bool_iff. unfold Qeq. simpl. lia.
Qed.

Lemma enough_matches_Q ts pk g :
  enough_matches ts pk g = true ↔
  (inject_Z (Z.of_nat (size (matched_turns ts pk))) == inject_Z (cells g) / 2)%Q.
Proof.
  unfold enough_matches. rewrite Qeq_bool_iff.
  by rewrite (Qmake_Qdiv (cells g) 2).
Qed.

(** ** What closing leaves *)

Lemma closed_turns req pk g lt st : turns (closed req pk g lt st) = turns st.
Proof. unfold closed. by destruct (is_game_suspected _ _ _). Qed.

Lemma closed_games req pk g lt st :
  games (closed req pk g lt st) =
    <[pk := closed_game req (turns st) pk g lt]> (games st).
Proof. unfold closed. by destruct (is_game_suspected _ _ _). Qed.

Lemma closed_session req pk g lt st :
  session (closed req pk g lt st) = pop_game (session st).
Proof. unfold closed. by destruct (is_game_suspected _ _ _). Qed.

(** After the turn is saved, closing the game cannot raise. *)
Lemma close_game_resolved req game_id game got context st :
  let st1 := resolved req game_id game got st in
  ∃ lt, last (game_turns (turns st1) game_id) = Some lt ∧
        close_game req game_id (cleared game) context st1 =
          (Ok (completion_context req (turns st1) game_id (cleared game) lt
                                  context),
           closed req game_id (cleared game) lt st1).
Proof.
  intros st1.
  pose proof (game_turns_saved (turns st) (turn_pk game_id (session st))
                (mkTurn game_id got.1 got.2 (now req))) as Hsaved.
  change (game_turns (turns st1) game_id !! turn_pk game_id (session st) =
          Some (mkTurn game_id got.1 got.2 (now req))) in Hsaved.
  destruct (last_is_Some _ _ _ Hsaved) as [lt Hlt]. exists lt. split; [done|].
  rewrite close_game_run, Hlt.
  by rewrite bool_decide_false by by eapply size_non_zero.
Qed.

Lemma names_cell_playfield g t r col card :
  names_cell g t r col card → playfield g ≠ [].
Proof. intros (_ & cs & _ & _ & _ & _ & _ & Hrow & _) Hnil. by rewrite Hnil in Hrow. Qed.

(** The second click of a round whose two clicks name cells: the response
    and the state it leaves. *)
Lemma post_second_click req st game_id p game r1 c1 k1 t r2 c2 k2 :
  s_game (session st) = Some game_id →
  s_player (session st) = Some p →
  Game_objects_get game_id p st = Some game →
  open_turn game = true →
  names_cell game (hold_card game) r1 c1 k1 →
  POST_click req = Some t →
  names_cell game t r2 c2 k2 →
  let got :=
    (VList [VDict [("row", VInt r1); ("column", VInt c1); ("card", VInt k1)];
            VDict [("row", VInt r2); ("column", VInt c2); ("card", VInt k2)]],
     bool_decide (k1 = k2)) in
  let st1 := resolved req game_id game got st in
  if enough_matches (turns st1) game_id game then
    ∃ lt, last (game_turns (turns st1) game_id) = Some lt ∧
          post req st =
            (Ok (mkResponse
                   (freshen (completion_context req (turns st1) game_id
                               (cleared game) lt (click_context req got))) 200),
             closed req game_id (cleared game) lt st1)
  else
    post req st = (Ok (mkResponse (freshen (click_context req got)) 200), st1).
Proof.
  intros Hg Hp Hget Hopen H1 Ht H2 got st1.
  destruct (second_click_cells req game st _ _ _ _ _ _ _ _ eq_refl H1 Ht H2)
    as (i1 & i2 & Hh & Hpost & Hm).
  rewrite (post_found _ _ _ _ _ Hg Hp Hget), Hopen. simpl negb. cbv iota.
  rewrite (second_click_resolved _ _ _ _ _ _ _ _ Hh Hpost Hm). cbv zeta.
  fold got. fold st1.
  change (update (the_click got) _) with (click_context req got).
  pose proof (names_cell_playfield _ _ _ _ _ H2) as Hpf.
  destruct (playfield game) as [|row0 rows] eqn:Hrows; [done|].
  change (enough_matches (turns st1) game_id (cleared game))
    with (enough_matches (turns st1) game_id game).
  destruct (enough_matches (turns st1) game_id game); [|done].
  destruct (close_game_resolved req game_id game got (click_context req got) st)
    as (lt & Hlt & Hclose).
  exists lt. split; [done|]. fold got st1 in Hclose. by rewrite Hclose.
Qed.

(** The answer to a resolved pair, in terms of the queryset
    [game.turns.filter(is_match=True)] as the table holds it after the
    request. *)
Lemma post_completes_count req st game_id p game r1 c1 k1 t r2 c2 k2 :
  s_game (session st) = Some game_id →
  s_player (session st) = Some p →
  Game_objects_get game_id p st = Some game →
  open_turn game = true →
  names_cell game (hold_card game) r1 c1 k1 →
  POST_click req = Some t →
  names_cell game t r2 c2 k2 →
  ∃ resp st',
    post req st = (Ok resp, st') ∧
    let matches := Z.of_nat (size (matched_turns (turns st') game_id)) in
    let completed := body resp !! "completed" = Some (VBool true) in
    (completed ↔ (inject_Z matches == inject_Z (cells game) / 2)%Q) ∧
    (¬ completed → body resp !! "completed" = None) ∧
    (completed →
     ∃ g', games st' !! game_id = Some g' ∧ finished g' = true ∧
           body resp !! "score" = Some (VDec (score g'))) ∧
    (length (playfield game) = 2%nat →
     Forall (λ row, length row = 3%nat) (playfield game) →
     (completed ↔ matches = 3)).
Proof.
  intros Hg Hp Hget Hopen H1 Ht H2.
  pose proof (post_second_click _ _ _ _ _ _ _ _ _ _ _ _ Hg Hp Hget Hopen H1 Ht H2)
    as Hpost. cbv zeta in Hpost.
  set (got := (VList _, bool_decide (k1 = k2))) in Hpost.
  set (st1 := resolved req game_id game got st) in Hpost.
  assert (Hsix : length (playfield game) = 2%nat →
                 Forall (λ row, length row = 3%nat) (playfield game) →
                 cells game = 6).
  { unfold cells. destruct (playfield game) as [|row0 rows]; [done|].
    intros Hlen Hall. apply Forall_cons in Hall as [Hrow0 _]. simpl in *. lia. }
  destruct (enough_matches (turns st1) game_id game) eqn:Hen.
  - destruct Hpost as (lt & Hlt & Hpost).
    eexists _, _. split; [exact Hpost|]. cbv zeta. cbn [body].
    rewrite closed_turns, closed_games.
    destruct (completing_answer req (turns st1) game_id (cleared game) lt
                (click_context req got)) as [-> ->].
    split_and!.
    + split; [intros _; by apply enough_matches_Q | done].
    + done.
    + intros _. eexists. by rewrite lookup_insert_eq.
    + intros Hlen Hall. apply enough_matches_Z in Hen.
      rewrite (Hsix Hlen Hall) in Hen. split; [lia | done].
  - eexists _, _. split; [exact Hpost|]. cbv zeta. cbn [body].
    destruct (plain_answer req got) as (-> & _).
    assert (Hno : ¬ enough_matches (turns st1) game_id game = true)
      by by rewrite Hen.
    split_and!.
    + split; [done|]. intros HQ. by apply enough_matches_Q in HQ.
    + done.
    + done.
    + intros Hlen Hall. split; [done|]. intros H3. destruct Hno.
      apply enough_matches_Z. rewrite (Hsix Hlen Hall). lia.
Qed.

(** What the querysets of a game hold. *)
Lemma game_turns_spec (ts : gmap Z Turn) pk k t :
  game_turns ts pk !! k = Some t ↔ ts !! k = Some t ∧ turn_game t = pk.
Proof. unfold game_turns. by rewrite map_lookup_filter_Some. Qed.

Lemma matched_turns_spec (ts : gmap Z Turn) pk k t :
  matched_turns ts pk !! k = Some t ↔
  ts !! k = Some t ∧ turn_game t = pk ∧ is_match t = true.
Proof.
  unfold matched_turns. rewrite map_lookup_filter_Some, game_turns_spec.
  simpl. tauto.
Qed.

Lemma dom_game_turns (ts : gmap Z Turn) pk k :
  k ∈ dom (game_turns ts pk) ↔ ∃ t, ts !! k = Some t ∧ turn_game t = pk.
Proof.
  rewrite elem_of_dom. unfold is_Some.
  split; intros [t Ht]; exists t; by apply game_turns_spec.
Qed.

Lemma dom_matched_turns (ts : gmap Z Turn) pk k :
  k ∈ dom (matched_turns ts pk) ↔
  ∃ t, ts !! k = Some t ∧ turn_game t = pk ∧ is_match t = true.
Proof.
  rewrite elem_of_dom. unfold is_Some.
  split; intros [t Ht]; exists t; by apply matched_turns_spec.
Qed.

(** C1: when the play endpoint resolves a pair on an active, unfinished
    game, it answers, and its answer declares the game complete exactly
    when the number of Turn records of this game with a true match flag,
    as the table holds them after the request, equals rows times columns
    over two; the completing answer carries [completed = true] and the
    score of the game, now finished; and a game of 2 rows and 3 columns
    completes exactly when it has 3 matched turns. *)
Theorem post_completes_exactly req st game_id p game r1 c1 k1 t r2 c2 k2 :
  s_game (session st) = Some game_id →
  s_player (session st) = Some p →
  Game_objects_get game_id p st = Some game →
  open_turn game = true →
  names_cell game (hold_card game) r1 c1 k1 →
  POST_click req = Some t →
  names_cell game t r2 c2 k2 →
  ∃ resp st' (matched : gset Z),
    post req st = (Ok resp, st') ∧
    (∀ k, k ∈ matched ↔
          ∃ turn, turns st' !! k = Some turn ∧ turn_game turn = game_id ∧
                  is_match turn = true) ∧
    let matches := Z.of_nat (size matched) in
    let completed := body resp !! "completed" = Some (VBool true) in
    (completed ↔ (inject_Z matches == inject_Z (cells game) / 2)%Q) ∧
    (¬ completed → body resp !! "completed" = None) ∧
    (completed →
     ∃ g', games st' !! game_id = Some g' ∧ finished g' = true ∧
           body resp !! "score" = Some (VDec (score g'))) ∧
    (length (playfield game) = 2%nat →
     Forall (λ row, length row = 3%nat) (playfield game) →
     (completed ↔ matches = 3)).
Proof.
  intros Hg Hp Hget Hopen H1 Ht H2.
  destruct (post_completes_count _ _ _ _ _ _ _ _ _ _ _ _ Hg Hp Hget Hopen H1 Ht H2)
    as (resp & st' & Hpost & Hrest).
  exists resp, st', (dom (matched_turns (turns st') game_id)).
  split; [done|]. split; [apply dom_matched_turns|].
  by rewrite size_dom.
Qed.

(** ** Clicks that name a cell *)

Lemma cell_of_names g t r col card :
  cell_of g t = Some (r, col, card) → names_cell g t r col card.
Proof.
  unfold cell_of, names_cell. intros Hcell.
  repeat (case_match; try done). subst.
  match goal with H : _ && _ = true |- _ => apply andb_true_iff in H as [Hr Hc] end.
  apply bool_decide_eq_true in Hr, Hc.
  destruct (playfield g !! Z.to_nat _) as [row|] eqn:Hrow; [|done].
  simpl in Hcell.
  destruct (row !! Z.to_nat _) as [k|] eqn:Hk; [|done].
  injection Hcell as <- <- <-. eexists _, row. split_and!; done.
Qed.

Lemma cell_of_is_Some g t :
  is_Some (cell_of g t) → ∃ r col card, names_cell g t r col card.
Proof. intros [[[r col] card] Hcell]. eauto using cell_of_names. Qed.

(** ** The answers of the play endpoint *)

Lemma post_first_click req st game_id p game t r col card :
  s_game (session st) = Some game_id →
  s_player (session st) = Some p →
  Game_objects_get game_id p st = Some game →
  open_turn game = false →
  POST_click req = Some t →
  names_cell game t r col card →
  post req st =
    (Ok (mkResponse
           (<["click" := VList [VDict [("row", VInt r); ("column", VInt col);
                                       ("card", VInt card)]]]>
              {[ "success" := VBool true ]}) 200),
     set_games (insert game_id (update_turn game true t)) st).
Proof.
  intros Hg Hp Hget Hopen Ht Hcell.
  rewrite (post_found _ _ _ _ _ Hg Hp Hget), Hopen. simpl negb. cbv iota.
  by apply first_click_cell.
Qed.

(** C3, amended: with no game id bound to the session the play endpoint
    answers 500 and [success = false]; with a game id that names no active,
    unfinished game of the session's player it answers 404, [success =
    false] and a message; and when the game is found and the posted click
    (with the pending click, on a second click) names a cell of the
    playfield, it answers 200 with [success = true]. *)
Theorem post_answers req st :
  click_ready req st = true →
  ∃ resp st',
    post req st = (Ok resp, st') ∧
    match s_game (session st) with
    | None => resp = mkResponse {[ "success" := VBool false ]} 500
    | Some game_id =>
        match s_player (session st) ≫= λ p, Game_objects_get game_id p st with
        | None =>
            resp = mkResponse (<["msg" := VStr "No active game session found."]>
                                 {[ "success" := VBool false ]}) 404
        | Some _ =>
            status resp = 200 ∧ body resp !! "success" = Some (VBool true)
        end
    end.
Proof.
  unfold click_ready. intros Hready.
  destruct (s_game (session st)) as [game_id|] eqn:Hg;
    [|eexists _, _; split; [by apply post_no_game | done]].
  destruct (s_player (session st)) as [p|] eqn:Hp; [|done]. simpl.
  destruct (Game_objects_get game_id p st) as [game|] eqn:Hget;
    [|eexists _, _; split; [by eapply post_not_found | done]].
  apply andb_true_iff in Hready as [Hclick Hheld].
  apply bool_decide_eq_true in Hclick.
  destruct (POST_click req) as [t|] eqn:Ht; [|by destruct Hclick].
  apply cell_of_is_Some in Hclick as (r2 & c2 & k2 & H2).
  destruct (open_turn game) eqn:Hopen.
  - simpl in Hheld. apply bool_decide_eq_true, cell_of_is_Some in Hheld
      as (r1 & c1 & k1 & H1).
    pose proof (post_second_click _ _ _ _ _ _ _ _ _ _ _ _
                  Hg Hp Hget Hopen H1 Ht H2) as Hpost.
    cbv zeta in Hpost. destruct (enough_matches _ _ _).
    + destruct Hpost as (lt & _ & ->). eexists _, _. split; [done|].
      split; [done|]. cbn [body].
      by rewrite freshen_lookup_ne, completion_context_lookup,
        click_context_lookup by done.
    + rewrite Hpost. eexists _, _. split; [done|]. split; [done|]. cbn [body].
      apply plain_answer.
  - rewrite (post_first_click _ _ _ _ _ _ _ _ _ Hg Hp Hget Hopen Ht H2).
    eexists _, _. split; [done|]. split; [done|]. cbn [body].
    by rewrite lookup_insert_ne, lookup_singleton_eq by done.
Qed.

(** ** What a request does to the Game table *)

Lemma resolved_games req game_id game got st :
  games (resolved req game_id game got st) = <[game_id := cleared game]> (games st).
Proof. done. Qed.

(** The play endpoint leaves the Game table alone or rewrites the one row
    it has fetched, an active and unfinished game, keeping its player. *)
Lemma post_games req st r st' :
  post req st = (r, st') →
  games st' = games st ∨
  ∃ game_id game g',
    games st !! game_id = Some game ∧ live game = true ∧
    player g' = player game ∧ games st' = <[game_id := g']> (games st).
Proof.
  intros Hrun.
  destruct (s_game (session st)) as [game_id|] eqn:Hg;
    [|rewrite post_no_game in Hrun by done; injection Hrun as _ <-; by left].
  destruct (s_player (session st)) as [p|] eqn:Hp;
    [|rewrite (post_no_player _ _ game_id) in Hrun by done;
      injection Hrun as _ <-; by left].
  destruct (Game_objects_get game_id p st) as [game|] eqn:Hget;
    [|rewrite (post_not_found _ _ game_id p) in Hrun by done;
      injection Hrun as _ <-; by left].
  rewrite (post_found _ _ _ _ _ Hg Hp Hget) in Hrun.
  apply Game_objects_get_Some in Hget as (Hlook & _ & Hact & Hfin).
  assert (Hlive : live game = true) by (unfold live; by rewrite Hact, Hfin).
  destruct (open_turn game); simpl in Hrun.
  - destruct (second_click_cases _ _ _ _ _ _ _ Hrun)
      as [(e & _ & ->)|(c1 & c2 & got & Hh & Hpost & Hm)]; [by left|].
    rewrite (second_click_resolved _ _ _ _ _ _ _ _ Hh Hpost Hm) in Hrun.
    cbv zeta in Hrun. right. exists game_id, game.
    destruct (playfield game) as [|row0 rows].
    { injection Hrun as _ <-. by exists (cleared game). }
    destruct (enough_matches _ _ _).
    + rewrite close_game_run in Hrun.
      destruct (last _) as [lt|].
      * case_bool_decide; injection Hrun as _ <-.
        -- by exists (cleared game).
        -- rewrite closed_games, resolved_games, insert_insert_eq.
           eexists. split_and!; [done|done| |reflexivity]. done.
      * injection Hrun as _ <-. by exists (cleared game).
    + injection Hrun as _ <-. by exists (cleared game).
  - destruct (first_click_effect _ _ _ _ _ _ Hrun)
      as (_ & _ & _ & [->|(t & _ & ->)]); [by left|].
    right. by exists game_id, game, (update_turn game true t).
Qed.

(** The play endpoint does not touch a finished game. *)
Lemma post_keeps_finished req st r st' pk g :
  post req st = (r, st') →
  games st !! pk = Some g → finished g = true → games st' !! pk = Some g.
Proof.
  intros Hrun Hpk Hfin.
  destruct (post_games _ _ _ _ Hrun)
    as [->|(game_id & game & g' & Hgame & Hlive & _ & ->)]; [done|].
  rewrite lookup_insert_ne; [done|]. intros ->.
  rewrite Hpk in Hgame. injection Hgame as ->.
  unfold live in Hlive. rewrite Hfin in Hlive. by destruct (active game).
Qed.

Lemma post_keeps_one_live_game req st r st' :
  post req st = (r, st') →
  one_live_game (games st) → one_live_game (games st').
Proof.
  intros Hrun Hone.
  destruct (post_games _ _ _ _ Hrun)
    as [->|(game_id & game & g' & Hgame & Hlive & Hplayer & ->)]; [done|].
  intros k1 k2 g1 g2 H1 H2 Hsame Hl1 Hl2.
  destruct (decide (k1 = game_id)) as [->|Hk1];
    destruct (decide (k2 = game_id)) as [->|Hk2]; [done| | |].
  - rewrite lookup_insert_eq in H1. rewrite lookup_insert_ne in H2 by done.
    injection H1 as <-. apply (Hone game_id k2 game g2); try done. congruence.
  - rewrite lookup_insert_eq in H2. rewrite lookup_insert_ne in H1 by done.
    injection H2 as <-. apply (Hone k1 game_id g1 game); try done. congruence.
  - rewrite lookup_insert_ne in H1, H2 by done. by apply (Hone k1 k2 g1 g2).
Qed.

(** ** The start endpoint *)

Lemma pure_get_game_context dimensions : pure (get_game_context dimensions).
Proof.
  unfold get_game_context.
  repeat (apply pure_bind; [auto with pure | intros]).
  - case_bool_decide; auto with pure.
  - apply pure_ret.
Qed.

Lemma pure_highscore_get_context_data : pure highscore_get_context_data.
Proof.
  unfold highscore_get_context_data.
  repeat (apply pure_bind; [auto with pure | intros]).
  repeat case_match; auto with pure.
Qed.

(** The start endpoint, once a player is drawn: the player's active games
    are stopped, the new game is inserted and bound to the session; what
    [get_game_context] answers does not change that. *)
Lemma get_context_data_run req st r st' :
  get_context_data req st = (r, st') →
  match USER_EMAILS !! (draw req `mod` length USER_EMAILS)%nat with
  | None => st' = st
  | Some p =>
      let gs := stop p <$> games st in
      games st' =
        <[next_pk gs := new_game p (uuid_b req)
                          (generate_play_field 2 3 (uuid_b req)) (now req)]> gs ∧
      s_game (session st') = Some (next_pk gs) ∧
      s_player (session st') = Some p ∧
      turns st' = turns st
  end.
Proof.
  unfold get_context_data, choice. intros Hrun.
  destruct (USER_EMAILS !! _) as [p|]; [|by injection Hrun as _ <-].
  simpl or_raise in Hrun. rewrite bind_ret in Hrun.
  unfold stop_active_games_for_player, save_game in Hrun.
  rewrite !bind_modify, bind_get_state, bind_when in Hrun.
  rewrite bind_get_state, bind_when in Hrun.
  change (list_index [2; 3] 0) with (@ret Z 2) in Hrun.
  rewrite bind_ret in Hrun.
  change (list_index [2; 3] 1) with (@ret Z 3) in Hrun.
  rewrite bind_ret, bind_get_state, !bind_modify in Hrun.
  set (st5 := set_session _ _) in Hrun.
  assert (st' = st5) as ->.
  { apply bind_pure_inv in Hrun as [(c & _ & Hret)|(e & _ & _ & ->)];
      [by injection Hret|done|apply pure_get_game_context]. }
  subst st5.
  repeat match goal with |- context [bool_decide ?P] => destruct (bool_decide P) end;
    by split_and!.
Qed.

Lemma stop_player p g : player (stop p g) = player g.
Proof. unfold stop. by destruct (_ && _). Qed.

Lemma stop_active p g :
  active (stop p g) = true → active g = true ∧ player g ≠ p.
Proof.
  unfold stop. destruct (bool_decide_reflect (player g = p)) as [Hp|Hp];
    destruct (active g) eqn:Ha; simpl; rewrite ?Ha; by auto.
Qed.

Lemma stop_live p g : live (stop p g) = true → live g = true ∧ player g ≠ p.
Proof.
  unfold live. rewrite !andb_true_iff. intros [Ha Hf].
  apply stop_active in Ha as [Ha Hp]. split_and!; [done| |done].
  revert Hf. unfold stop. by destruct (_ && _).
Qed.

(** Stopping a player's games and inserting a new live game of that player
    keeps the games one per player. *)
Lemma new_game_keeps_one_live_game gs p k g :
  player g = p → one_live_game gs → one_live_game (<[k := g]> (stop p <$> gs)).
Proof.
  intros Hp Hone k1 k2 g1 g2 H1 H2 Hsame Hl1 Hl2.
  destruct (decide (k1 = k)) as [->|Hk1];
    destruct (decide (k2 = k)) as [->|Hk2]; [done| | |].
  - rewrite lookup_insert_eq in H1. rewrite lookup_insert_ne in H2 by done.
    injection H1 as <-. rewrite lookup_fmap in H2.
    destruct (gs !! k2) as [g0|]; [|done]. injection H2 as <-.
    apply stop_live in Hl2 as [_ Hne]. rewrite stop_player in Hsame.
    congruence.
  - rewrite lookup_insert_eq in H2. rewrite lookup_insert_ne in H1 by done.
    injection H2 as <-. rewrite lookup_fmap in H1.
    destruct (gs !! k1) as [g0|]; [|done]. injection H1 as <-.
    apply stop_live in Hl1 as [_ Hne]. rewrite stop_player in Hsame.
    congruence.
  - rewrite lookup_insert_ne, lookup_fmap in H1, H2 by done.
    destruct (gs !! k1) as [a|] eqn:Ha; [|done]. injection H1 as <-.
    destruct (gs !! k2) as [b|] eqn:Hb; [|done]. injection H2 as <-.
    rewrite !stop_player in Hsame.
    apply stop_live in Hl1 as [Hl1 _]. apply stop_live in Hl2 as [Hl2 _].
    by apply (Hone k1 k2 a b).
Qed.

Lemma get_context_data_keeps_one_live_game req st r st' :
  get_context_data req st = (r, st') →
  one_live_game (games st) → one_live_game (games st').
Proof.
  intros Hrun Hone. apply get_context_data_run in Hrun.
  destruct (USER_EMAILS !! _) as [p|]; [|by subst].
  destruct Hrun as (-> & _). by apply new_game_keeps_one_live_game.
Qed.

(** ** Requests through the session middleware *)

Lemma serve_state {A} cookie (h : M A) site :
  site_state (serve cookie h site).2 = (h (request_state cookie site)).2.
Proof. unfold serve. by destruct (h _) as [[a|e] st]. Qed.

Lemma handle_keeps_one_live_game site c :
  one_live_game (games (site_state site)) →
  one_live_game (games (site_state (handle site c))).
Proof.
  intros Hone. destruct c as [cookie req|cookie req|cookie]; simpl;
    rewrite serve_state.
  - destruct (get_context_data req _) as [r st'] eqn:Hrun.
    by apply (get_context_data_keeps_one_live_game _ _ _ _ Hrun).
  - destruct (post req _) as [r st'] eqn:Hrun.
    by apply (post_keeps_one_live_game _ _ _ _ Hrun).
  - by rewrite pure_highscore_get_context_data.
Qed.

Lemma run_snoc calls c site : run (calls ++ [c]) site = handle (run calls site) c.
Proof. unfold run. by rewrite foldl_app. Qed.

(** C9: at most one active, unfinished game exists per player after every
    sequence of requests to the three endpoints; and a request to the start
    endpoint leaves the selected player with the new game, bound to the
    session, as the only active game: every other one has been stopped. *)
Theorem one_live_game_always site calls :
  one_live_game (games (site_state site)) →
  one_live_game (games (site_state (run calls site))) ∧
  ∀ cookie req p,
    USER_EMAILS !! (draw req `mod` length USER_EMAILS)%nat = Some p →
    let after := site_state (handle (run calls site) (Start cookie req)) in
    ∃ pk g,
      s_game (session after) = Some pk ∧ games after !! pk = Some g ∧
      player g = p ∧ live g = true ∧
      ∀ k g', games after !! k = Some g' → player g' = p →
              active g' = true → k = pk.
Proof.
  intros Hone. split.
  - induction calls as [|c calls IH] using rev_ind; [done|].
    rewrite run_snoc. by apply handle_keeps_one_live_game.
  - intros cookie req p Hp after. subst after. simpl handle.
    rewrite serve_state.
    destruct (get_context_data req _) as [r st'] eqn:Hrun.
    apply get_context_data_run in Hrun. rewrite Hp in Hrun.
    destruct Hrun as (Hgames & Hsess & _). simpl.
    eexists _, _. split; [exact Hsess|]. rewrite Hgames.
    split; [apply lookup_insert_eq|]. split_and!; [done..|].
    intros k g' Hk Hpl Hact.
    destruct (decide (k = next_pk (stop p <$> games
                (request_state cookie (run calls site))))) as [->|Hne]; [done|].
    rewrite lookup_insert_ne, lookup_fmap in Hk by done.
    destruct (games _ !! k) as [g0|]; [|done]. injection Hk as <-.
    apply stop_active in Hact as [_ Hact]. by rewrite stop_player in Hpl.
Qed.

(** C8: a finished game is never written again by the play endpoint: after
    any sequence of play requests, from any sessions, its row (score and
    average time included) is the one it had. *)
Theorem finished_game_is_frozen site plays pk g :
  games (site_state site) !! pk = Some g →
  finished g = true →
  games (site_state (run (uncurry Play <$> plays) site)) !! pk = Some g.
Proof.
  intros Hpk Hfin. induction plays as [|[cookie req] plays IH] using rev_ind;
    [done|].
  rewrite fmap_app. simpl. rewrite run_snoc. simpl. rewrite serve_state.
  destruct (post req _) as [r st'] eqn:Hrun.
  by apply (post_keeps_finished _ _ _ _ _ _ Hrun).
Qed.

(** C10: without a player in the session the highscore endpoint raises
    [KeyError] and returns no response. *)
Theorem highscore_without_player st :
  s_player (session st) = None →
  highscore_get_context_data st = (Raised (KeyError "player"), st).
Proof.
  intros Hp. unfold highscore_get_context_data.
  rewrite bind_get_state, Hp. done.
Qed.

(** ** The average time of a turn *)

(** The rounded quotient is within half a unit of the exact one. *)
Lemma divide_and_round_bound a b :
  0 < b → 2 * Z.abs (divide_and_round a b * b - a) ≤ b.
Proof.
  intros Hb. unfold divide_and_round.
  pose proof (Z.div_mod a b ltac:(lia)) as Hdiv.
  pose proof (Z.mod_pos_bound a b Hb) as Hmod.
  rewrite (bool_decide_true (0 < b)) by done.
  repeat case_bool_decide; simpl; nia.
Qed.

Lemma divide_and_round_exact a b :
  0 < b → (b | a) → divide_and_round a b = a `div` b.
Proof.
  intros Hb Hdvd. unfold divide_and_round.
  apply Z.mod_divide in Hdvd; [|lia]. rewrite Hdvd.
  rewrite (bool_decide_true (0 < b)) by done.
  repeat case_bool_decide; simpl; lia.
Qed.

(** A completing answer comes from the second click, with enough matched
    turns after the turn is saved. *)
Lemma post_completed req st resp st' :
  post req st = (Ok resp, st') →
  body resp !! "completed" = Some (VBool true) →
  ∃ game_id p game got lt,
    s_game (session st) = Some game_id ∧
    Game_objects_get game_id p st = Some game ∧
    let st1 := resolved req game_id game got st in
    last (game_turns (turns st1) game_id) = Some lt ∧
    Z.of_nat (size (game_turns (turns st1) game_id)) ≠ 0 ∧
    st' = closed req game_id (cleared game) lt st1.
Proof.
  intros Hrun Hdone.
  destruct (s_game (session st)) as [game_id|] eqn:Hg;
    [|rewrite post_no_game in Hrun by done; injection Hrun as <- _; done].
  destruct (s_player (session st)) as [p|] eqn:Hp;
    [|by rewrite (post_no_player _ _ game_id) in Hrun].
  destruct (Game_objects_get game_id p st) as [game|] eqn:Hget;
    [|rewrite (post_not_found _ _ game_id p) in Hrun by done;
      injection Hrun as <- _; done].
  rewrite (post_found _ _ _ _ _ Hg Hp Hget) in Hrun.
  destruct (open_turn game); simpl in Hrun.
  - destruct (second_click_cases _ _ _ _ _ _ _ Hrun)
      as [(e & [=] & _)|(c1 & c2 & got & Hh & Hpost & Hm)].
    rewrite (second_click_resolved _ _ _ _ _ _ _ _ Hh Hpost Hm) in Hrun.
    exists game_id, p, game, got. revert Hrun. cbv zeta.
    destruct (playfield game); [done|].
    destruct (enough_matches _ _ _).
    + rewrite close_game_run. destruct (last _) as [lt|]; [|done].
      case_bool_decide; [done|]. intros [= <- <-]. by exists lt.
    + intros [= <- _]. cbn [body] in Hdone.
      change (update (the_click got) _) with (click_context req got) in Hdone.
      by rewrite (proj1 (plain_answer req got)) in Hdone.
  - apply first_click_Ok in Hrun as (t & c1 & _ & _ & ->). done.
Qed.

(** Ties of the rounded quotient go to the even integer. *)
Lemma divide_and_round_even a b :
  0 < b → 2 * Z.abs (divide_and_round a b * b - a) = b →
  Z.even (divide_and_round a b) = true.
Proof.
  intros Hb. unfold divide_and_round.
  pose proof (Z.div_mod a b ltac:(lia)) as Hdiv.
  pose proof (Z.mod_pos_bound a b Hb) as Hmod.
  pose proof (Z.div_mod (a `div` b) 2 ltac:(lia)) as Hq.
  pose proof (Z.mod_pos_bound (a `div` b) 2 ltac:(lia)) as Hq2.
  rewrite (bool_decide_true (0 < b)) by done.
  repeat case_bool_decide; simpl; intros Htie; try nia;
    apply Z.even_spec.
  - exists ((a `div` b) `div` 2 + 1). lia.
  - exists ((a `div` b) `div` 2). nia.
Qed.

(** C7: when a game completes, the average seconds per turn recorded on it
    is the time from the game's creation to the creation of its last turn
    (the Turn of the game with the greatest key), divided by the number of
    the game's Turn records.  The quotient is the one [timedelta] division
    gives, in whole microseconds: the integer nearest to the exact
    quotient, ties to even, hence the exact quotient when the division
    leaves no remainder.  It is recorded in seconds as a float: the
    binary64 quotient of the microseconds by 10**6. *)
Theorem average_per_turn_recorded req st game_id resp st' :
  s_game (session st) = Some game_id →
  post req st = (Ok resp, st') →
  body resp !! "completed" = Some (VBool true) →
  ∃ g g' (mine : gset Z) last_key lt average,
    games st !! game_id = Some g ∧
    games st' !! game_id = Some g' ∧
    (∀ k, k ∈ mine ↔
          ∃ turn, turns st' !! k = Some turn ∧ turn_game turn = game_id) ∧
    last_key ∈ mine ∧ (∀ k, k ∈ mine → k ≤ last_key) ∧
    turns st' !! last_key = Some lt ∧
    let count := Z.of_nat (size mine) in
    let elapsed := turn_created lt - created g in
    0 < count ∧
    2 * Z.abs (average * count - elapsed) ≤ count ∧
    (2 * Z.abs (average * count - elapsed) = count → Z.even average = true) ∧
    ((count | elapsed) → average = elapsed `div` count) ∧
    time g' =
      SFdiv 53 1024
        match average with
        | 0 => S754_zero false
        | Zpos m => S754_finite false m 0
        | Zneg m => S754_finite true m 0
        end
        (S754_finite false 1000000 0).
Proof.
  intros Hg Hrun Hdone.
  destruct (post_completed _ _ _ _ Hrun Hdone)
    as (gid & p & game & got & lt & Hg' & Hget & Hlt & Hcount & ->).
  rewrite Hg in Hg'. injection Hg' as <-.
  apply Game_objects_get_Some in Hget as (Hlook & _).
  set (st1 := resolved req game_id game got st) in *.
  destruct (last_greatest _ _ Hlt) as (k & Hk & Hmax).
  set (count := Z.of_nat (size (game_turns (turns st1) game_id))) in *.
  set (elapsed := turn_created lt - created game).
  exists game, (closed_game req (turns st1) game_id (cleared game) lt),
    (dom (game_turns (turns st1) game_id)), k, lt,
    (divide_and_round elapsed count).
  rewrite closed_games, closed_turns, lookup_insert_eq, size_dom.
  assert (0 < count) by lia.
  split_and!; [done|done|apply dom_game_turns| | | |].
  - apply dom_game_turns. apply game_turns_spec in Hk. eauto.
  - intros k' [t' Hk']%dom_game_turns. apply (Hmax k' t').
    by apply game_turns_spec.
  - by apply game_turns_spec in Hk as [? _].
  - cbv zeta. split_and!; [done| | | |done].
    + by apply divide_and_round_bound.
    + by apply divide_and_round_even.
    + by apply divide_and_round_exact.
Qed.

(** ** The best score of the start endpoint *)

(** [get_game_context] answers 0.0 as best score when the player has no
    game with a positive score, and raises as soon as there is one. *)
Lemma get_game_context_best_score st p :
  s_player (session st) = Some p →
  (size (high_score_games (games st) p) = 0%nat →
   ∃ context data,
     get_game_context [2; 3] st = (Ok context, st) ∧
     context !! "game_data" = Some (VJson (VDict data)) ∧
     dict_get "best_score" data = Some (VDec 0)) ∧
  (size (high_score_games (games st) p) ≠ 0%nat →
   get_game_context [2; 3] st = (Raised (AttributeError "score"), st)).
Proof.
  intros Hp. unfold get_game_context. rewrite bind_get_state, Hp.
  simpl or_raise. rewrite bind_ret. split; intros Hsize.
  - rewrite bool_decide_false by (by intros []). rewrite bind_ret.
    change (list_index [2; 3] 0) with (@ret Z 2). rewrite bind_ret.
    change (list_index [2; 3] 1) with (@ret Z 3). rewrite bind_ret.
    eexists _, _. split; [reflexivity|].
    split; [by rewrite lookup_insert_ne, lookup_singleton_eq | reflexivity].
  - by rewrite bool_decide_true.
Qed.

(** The first click answers without the token. *)
Lemma first_click_no_token req game_id game st resp st' :
  first_click req game_id game st = (Ok resp, st') →
  body resp !! "csrf_token" = None.
Proof. intros Hrun. by apply first_click_Ok in Hrun as (t & c1 & _ & _ & ->). Qed.

(** The Turn table grows by one exactly when the key of the saved Turn is
    new; on a key in use the record under it is overwritten. *)
Lemma resolved_turn_count req game_id game got st :
  size (turns (resolved req game_id game got st)) =
    if bool_decide (is_Some (turns st !! turn_pk game_id (session st)))
    then size (turns st) else S (size (turns st)).
Proof.
  change (turns (resolved req game_id game got st))
    with (<[turn_pk game_id (session st) :=
              mkTurn game_id got.1 got.2 (now req)]> (turns st)).
  case_bool_decide as Hkey.
  - destruct Hkey as [old Hold]. by eapply map_size_insert_Some.
  - apply map_size_insert_None. by apply eq_None_not_Some.
Qed.

(** The session's counter after the second click is one past the key. *)
Lemma resolved_counter req game_id game got st :
  s_turn (session (resolved req game_id game got st)) =
    Some (turn_pk game_id (session st) + 1).
Proof. done. Qed.

End Properties.

(** ** The handlers on concrete requests *)

(** C1 at the click that decides the last pair of a 2 by 3 game. *)
Lemma post_completes_exactly_witness :
  ∃ resp st' (matched : gset Z),
    post last_click last_pair_state = (Ok resp, st') ∧
    (∀ k, k ∈ matched ↔
          ∃ turn, turns st' !! k = Some turn ∧ turn_game turn = 1 ∧
                  is_match turn = true) ∧
    let matches := Z.of_nat (size matched) in
    let completed := body resp !! "completed" = Some (VBool true) in
    (completed ↔ (inject_Z matches == inject_Z (cells (ann_game true (click_at 0 2))) / 2)%Q) ∧
    (¬ completed → body resp !! "completed" = None) ∧
    (completed →
     ∃ g', games st' !! 1 = Some g' ∧ finished g' = true ∧
           body resp !! "score" = Some (VDec (score g'))) ∧
    (length (playfield (ann_game true (click_at 0 2))) = 2%nat →
     Forall (λ row, length row = 3%nat) (playfield (ann_game true (click_at 0 2))) →
     (completed ↔ matches = 3)).
Proof.
  apply (post_completes_exactly last_click last_pair_state 1 ann
           (ann_game true (click_at 0 2)) 0 2 3 (click_at 1 2) 1 2 3);
    try reflexivity; apply cell_of_names; reflexivity.
Defined.

(** C3, amended, at a second click on ann's game. *)
Lemma post_answers_witness :
  click_ready (request_at 3000000 (Some (click_at 0 1)) 0) pending_state = true ∧
  ∃ resp st',
    post (request_at 3000000 (Some (click_at 0 1)) 0) pending_state
      = (Ok resp, st') ∧
    status resp = 200 ∧ body resp !! "success" = Some (VBool true).
Proof.
  split; [reflexivity|].
  exact (post_answers (request_at 3000000 (Some (click_at 0 1)) 0)
           pending_state eq_refl).
Defined.

(** C3 as stated fails: ann's session binds her active, unfinished game,
    the request posts no [click] field, and the play endpoint raises
    instead of answering. *)
Lemma post_raises_without_click :
  s_game (session fresh_state) = Some 1 ∧
  Game_objects_get 1 ann fresh_state = Some (ann_game false (Enc (VDict []))) ∧
  post (request_at 2000000 None 0) fresh_state
    = (Raised (MultiValueDictKeyError "click"), fresh_state) ∧
  ¬ ∃ resp st', post (request_at 2000000 None 0) fresh_state = (Ok resp, st').
Proof.
  assert (Hrun : post (request_at 2000000 None 0) fresh_state
                 = (Raised (MultiValueDictKeyError "click"), fresh_state))
    by reflexivity.
  split_and!; [reflexivity..|exact Hrun|].
  intros (resp & st' & Hok). rewrite Hrun in Hok. discriminate.
Qed.

(** C7 at the click that completes ann's game: the last turn is created at
    second 7, the game at second 1, three turns: two seconds a turn. *)
Lemma average_per_turn_recorded_witness :
  ∃ resp st',
    post last_click last_pair_state = (Ok resp, st') ∧
    ∃ g g' (mine : gset Z) last_key lt average,
      games last_pair_state !! 1 = Some g ∧
      games st' !! 1 = Some g' ∧
      (∀ k, k ∈ mine ↔
            ∃ turn, turns st' !! k = Some turn ∧ turn_game turn = 1) ∧
      last_key ∈ mine ∧ (∀ k, k ∈ mine → k ≤ last_key) ∧
      turns st' !! last_key = Some lt ∧
      let count := Z.of_nat (size mine) in
      let elapsed := turn_created lt - created g in
      0 < count ∧
      2 * Z.abs (average * count - elapsed) ≤ count ∧
      (2 * Z.abs (average * count - elapsed) = count → Z.even average = true) ∧
      ((count | elapsed) → average = elapsed `div` count) ∧
      time g' =
        SFdiv 53 1024
          match average with
          | 0 => S754_zero false
          | Zpos m => S754_finite false m 0
          | Zneg m => S754_finite true m 0
          end
          (S754_finite false 1000000 0).
Proof.
  eexists _, _. split; [vm_compute; reflexivity|].
  eapply (average_per_turn_recorded last_click last_pair_state 1);
    vm_compute; reflexivity.
Defined.

(** The recorded average of that game is the float 2.0: six seconds over
    three turns. *)
Lemma last_pair_average :
  ∃ f, time <$> games (post last_click last_pair_state).2 !! 1 = Some f ∧
       f = S754_finite false 4503599627370496 (-51) ∧
       SF2Q f = Some (inject_Z 4503599627370496 * Qpower 2 (-51))%Q ∧
       (inject_Z 4503599627370496 * Qpower 2 (-51) == 2)%Q.
Proof.
  eexists. split; [vm_compute; reflexivity|]. split; [reflexivity|].
  split; reflexivity.
Qed.

(** A second and a half and two microseconds is recorded as the float
    nearest to 1.500002, which is not that rational. *)
Lemma total_seconds_is_a_float :
  total_seconds 1500002 = S754_finite false 6755408448254999 (-52) ∧
  ¬ (inject_Z 6755408448254999 * Qpower 2 (-52) == 1500002 # 1000000)%Q.
Proof. split; [vm_compute; reflexivity|]. intros Heq. vm_compute in Heq. discriminate. Qed.

(** C8 at ann's finished game: further clicks of her session leave the row
    as it is. *)
Lemma finished_game_is_frozen_witness :
  ∃ g,
    games (site_state finished_site) !! 1 = Some g ∧ finished g = true ∧
    games (site_state (run (uncurry Play <$> [(0%nat, last_click); (0%nat, last_click)])
             finished_site)) !! 1 = Some g.
Proof.
  eexists. split; [vm_compute; reflexivity|]. split; [reflexivity|].
  apply (finished_game_is_frozen finished_site); vm_compute; reflexivity.
Defined.

(** C9 at a second start for ann: her game of session 0 is live when she
    is drawn again in session 1, and again in session 2. *)
Lemma one_live_game_always_witness :
  one_live_game (games (site_state started_site)) ∧
  live <$> games (site_state started_site) !! 1 = Some true ∧
  one_live_game (games (site_state (run second_start started_site))) ∧
  live <$> games (site_state (run second_start started_site)) !! 1
    = Some false ∧
  live <$> games (site_state (run second_start started_site)) !! 2
    = Some true ∧
  (let after := site_state (handle (run second_start started_site)
                              (Start 2 (request_at 30000000 None 0))) in
   ∃ pk g,
     s_game (session after) = Some pk ∧ games after !! pk = Some g ∧
     player g = ann ∧ live g = true ∧
     ∀ k g', games after !! k = Some g' → player g' = ann →
             active g' = true → k = pk).
Proof.
  assert (Hone : one_live_game (games (site_state started_site))).
  { assert (games (site_state started_site)
            = {[ 1 := ann_game false (Enc (VDict [])) ]}) as ->
      by (vm_compute; reflexivity).
    intros k1 k2 g1 g2 [<- _]%lookup_singleton_Some
      [<- _]%lookup_singleton_Some _ _ _. reflexivity. }
  destruct (one_live_game_always started_site second_start Hone)
    as [Hafter Hstart].
  split; [exact Hone|]. split; [vm_compute; reflexivity|].
  split; [exact Hafter|]. split; [vm_compute; reflexivity|].
  split; [vm_compute; reflexivity|].
  apply (Hstart 2%nat (request_at 30000000 None 0) ann). reflexivity.
Defined.

(** C10 at a session that holds nothing. *)
Lemma highscore_without_player_witness :
  highscore_get_context_data empty_state = (Raised (KeyError "player"), empty_state).
Proof. apply highscore_without_player. reflexivity. Defined.

(** C2: the code at the second click of ann's eleventh round.  A click is
    pending on her active, unfinished game and the endpoint answers with
    the match outcome, but the Turn table has as many records after the
    request as before: the key of the new Turn, 21, is the key of the Turn
    of bob's game, which is overwritten. *)
Theorem second_click_creates_no_turn :
  ∃ game resp after,
    Game_objects_get 1 ann crowded_state = Some game ∧
    open_turn game = true ∧
    post eleventh_click crowded_state = (Ok resp, after) ∧
    body resp !! "match" = Some (VBool false) ∧
    size (turns crowded_state) = 11%nat ∧
    size (turns after) = 11%nat.
Proof.
  eexists _, _, _. split; [vm_compute; reflexivity|].
  split; [reflexivity|]. split; [vm_compute; reflexivity|].
  split; [reflexivity|]. split; [vm_compute; reflexivity|].
  vm_compute. reflexivity.
Qed.

(** C4: the code on two sessions.  Bob's session holds no counter when his
    first round is resolved, so the Turn of his game 2 gets the key
    2 * 10 + 1 = 21; ann's session, ten rounds into game 1, holds the
    counter 21.  Her eleventh Turn is saved under the key of bob's Turn,
    and bob's game is left without a turn. *)
Theorem turn_keys_collide :
  turn_pk 2 (set_game 2 empty_session) = 21 ∧
  turn_pk 1 (session crowded_state) = 21 ∧
  turn_game <$> turns crowded_state !! 21 = Some 2 ∧
  turn_game <$> turns (post eleventh_click crowded_state).2 !! 21 = Some 1 ∧
  size (game_turns (turns crowded_state) 2) = 1%nat ∧
  size (game_turns (turns (post eleventh_click crowded_state).2) 2) = 0%nat.
Proof. split_and!; (vm_compute; reflexivity). Qed.

(** C5: the code at the two clicks of a round.  The answer to the first
    click is a success without [csrf_token]; the answer to the second click
    carries the token. *)
Theorem first_click_answer_has_no_token :
  (∃ resp,
     post (request_at 2000000 (Some (click_at 0 0)) 0) fresh_state
       = (Ok resp, pending_state) ∧
     status resp = 200 ∧
     body resp !! "success" = Some (VBool true) ∧
     body resp !! "csrf_token" = None) ∧
  (∃ resp2 st2,
     post (request_at 3000000 (Some (click_at 0 1)) 0) pending_state
       = (Ok resp2, st2) ∧
     body resp2 !! "csrf_token" = Some (VStr "Zk3vQ9")).
Proof.
  split.
  - eexists. split; [vm_compute; reflexivity|].
    split; [reflexivity|]. split; reflexivity.
  - eexists _, _. split; [vm_compute; reflexivity|]. reflexivity.
Qed.

(** C6: the code at a start request that selects ann once her game is
    finished with a positive score: [get_game_context] raises
    [AttributeError], and no rendering data is returned. *)
Theorem start_raises_for_scored_player :
  ∃ g,
    games (site_state finished_site) !! 1 = Some g ∧
    player g = ann ∧ finished g = true ∧ Qle_bool (score g) 0 = false ∧
    USER_EMAILS !! (draw (request_at 9000000 None 0) `mod` length USER_EMAILS)%nat
      = Some ann ∧
    (get_context_data (request_at 9000000 None 0)
       (request_state 0 finished_site)).1 = Raised (AttributeError "score").
Proof.
  eexists. split; [vm_compute; reflexivity|].
  split; [reflexivity|]. split; [reflexivity|]. split; [reflexivity|].
  split; [reflexivity|]. vm_compute. reflexivity.
Qed.

(** ** The concrete states are reached from the empty site *)

Lemma fresh_state_reached :
  request_state 0 (run [Start 0 (request_at 1000000 None 0)] empty_site)
    = fresh_state.
Proof. vm_compute. reflexivity. Qed.

Lemma pending_state_reached :
  request_state 0
    (run [Start 0 (request_at 1000000 None 0);
          Play 0 (request_at 2000000 (Some (click_at 0 0)) 0)] empty_site)
    = pending_state.
Proof. vm_compute. reflexivity. Qed.

Lemma last_pair_state_reached :
  request_state 0
    (run [Start 0 (request_at 1000000 None 0);
          Play 0 (request_at 2000000 (Some (click_at 0 0)) 0);
          Play 0 (request_at 3000000 (Some (click_at 1 0)) 0);
          Play 0 (request_at 4000000 (Some (click_at 0 1)) 0);
          Play 0 (request_at 5000000 (Some (click_at 1 1)) 0);
          Play 0 (request_at 6000000 (Some (click_at 0 2)) 0)] empty_site)
    = last_pair_state.
Proof. vm_compute. reflexivity. Qed.

(** * Further properties of the handlers *)

Section Frames.
Context `{collaborators : Collaborators}.

(** ** The states a play request can leave *)

Lemma state_eq (a b : State) :
  games a = games b → turns a = turns b → suspected a = suspected b →
  session a = session b → a = b.
Proof. destruct a, b. simpl. by intros -> -> -> ->. Qed.

(** Every outcome of the play endpoint, answer or exception, leaves one of
    five states: the state untouched, the click marked pending, the round
    resolved, the round resolved and the game popped from the session, or
    the game closed. *)
Lemma post_shapes req st r st' :
  post req st = (r, st') →
  st' = st ∨
  ∃ game_id p game,
    s_game (session st) = Some game_id ∧ s_player (session st) = Some p ∧
    Game_objects_get game_id p st = Some game ∧
    ((open_turn game = false ∧
      ∃ t, POST_click req = Some t ∧
           st' = set_games (insert game_id (update_turn game true t)) st) ∨
     (open_turn game = true ∧
      ∃ got,
        st' = resolved req game_id game got st ∨
        st' = set_session pop_game (resolved req game_id game got st) ∨
        ∃ lt, st' = closed req game_id (cleared game) lt
                      (resolved req game_id game got st))).
Proof.
  intros Hrun.
  destruct (s_game (session st)) as [game_id|] eqn:Hg;
    [|rewrite post_no_game in Hrun by done; injection Hrun as _ <-; by left].
  destruct (s_player (session st)) as [p|] eqn:Hp;
    [|rewrite (post_no_player _ _ game_id) in Hrun by done;
      injection Hrun as _ <-; by left].
  destruct (Game_objects_get game_id p st) as [game|] eqn:Hget;
    [|rewrite (post_not_found _ _ game_id p) in Hrun by done;
      injection Hrun as _ <-; by left].
  rewrite (post_found _ _ _ _ _ Hg Hp Hget) in Hrun.
  destruct (open_turn game) eqn:Hopen; simpl in Hrun.
  - destruct (second_click_cases _ _ _ _ _ _ _ Hrun)
      as [(e & _ & ->)|(c1 & c2 & got & Hh & Hpost & Hm)]; [by left|].
    rewrite (second_click_resolved _ _ _ _ _ _ _ _ Hh Hpost Hm) in Hrun.
    cbv zeta in Hrun. right. exists game_id, p, game.
    split_and!; [done..|]. right. split; [done|]. exists got.
    destruct (playfield game) as [|row0 rows].
    { injection Hrun as _ <-. by left. }
    destruct (enough_matches _ _ _).
    + rewrite close_game_run in Hrun.
      destruct (last _) as [lt|].
      * case_bool_decide; injection Hrun as _ <-; [by right; left|].
        right. right. by exists lt.
      * injection Hrun as _ <-. by right; left.
    + injection Hrun as _ <-. by left.
  - destruct (first_click_effect _ _ _ _ _ _ Hrun)
      as (Hturns & Hsess & Hsusp & [Hgames|(t & Ht & Hgames)]).
    + left. by apply state_eq.
    + right. exists game_id, p, game. split_and!; [done..|]. left.
      split; [done|]. exists t. split; [done|]. by apply state_eq.
Qed.

(** X1: whatever a first click does, answer or exception, it writes no
    Turn, leaves the session as it is and marks no game as suspected. *)
Theorem first_click_writes_no_turn req st game_id p game :
  s_game (session st) = Some game_id →
  s_player (session st) = Some p →
  Game_objects_get game_id p st = Some game →
  open_turn game = false →
  turns (post req st).2 = turns st ∧
  session (post req st).2 = session st ∧
  suspected (post req st).2 = suspected st.
Proof.
  intros Hg Hp Hget Hopen.
  rewrite (post_found _ _ _ _ _ Hg Hp Hget), Hopen. simpl negb. cbv iota.
  destruct (first_click req game_id game st) as [r st'] eqn:Hrun.
  by destruct (first_click_effect _ _ _ _ _ _ Hrun) as (? & ? & ? & _).
Qed.

(** X2: a first click that names a cell is answered with success and the
    one revealed click, nothing else; and the game, fetched again, holds
    the posted text as its pending click. *)
Theorem first_click_is_held req st game_id p game t r col card :
  s_game (session st) = Some game_id →
  s_player (session st) = Some p →
  Game_objects_get game_id p st = Some game →
  open_turn game = false →
  POST_click req = Some t →
  names_cell game t r col card →
  ∃ resp st',
    post req st = (Ok resp, st') ∧
    status resp = 200 ∧
    dom (body resp) = {[ "success"; "click" ]} ∧
    body resp !! "success" = Some (VBool true) ∧
    body resp !! "click" =
      Some (VList [VDict [("row", VInt r); ("column", VInt col);
                          ("card", VInt card)]]) ∧
    ∃ held,
      Game_objects_get game_id p st' = Some held ∧
      open_turn held = true ∧ hold_card held = t.
Proof.
  intros Hg Hp Hget Hopen Ht Hcell.
  rewrite (post_first_click _ _ _ _ _ _ _ _ _ Hg Hp Hget Hopen Ht Hcell).
  eexists _, _. split; [done|]. split; [done|]. cbn [body]. split_and!.
  - rewrite dom_insert_L, dom_singleton_L. apply (comm_L (∪)).
  - by rewrite lookup_insert_ne, lookup_singleton_eq.
  - by rewrite lookup_insert_eq.
  - exists (update_turn game true t). split_and!; [|done..].
    apply Game_objects_get_Some in Hget as (_ & Hpl & Ha & Hf).
    apply Game_objects_get_Some. simpl. by rewrite lookup_insert_eq.
Qed.

(** X3: a second click whose Turn key is not in use adds exactly one Turn:
    the Turn of this game, with both clicks, the match flag (the cards are
    equal) and the clock of the request; the session's counter moves one
    past the key. *)
Theorem second_click_adds_one_turn req st game_id p game r1 c1 k1 t r2 c2 k2 :
  s_game (session st) = Some game_id →
  s_player (session st) = Some p →
  Game_objects_get game_id p st = Some game →
  open_turn game = true →
  names_cell game (hold_card game) r1 c1 k1 →
  POST_click req = Some t →
  names_cell game t r2 c2 k2 →
  turns st !! turn_pk game_id (session st) = None →
  ∃ resp st',
    post req st = (Ok resp, st') ∧
    size (turns st') = S (size (turns st)) ∧
    turns st' !! turn_pk game_id (session st) =
      Some (mkTurn game_id
              (VList [VDict [("row", VInt r1); ("column", VInt c1); ("card", VInt k1)];
                      VDict [("row", VInt r2); ("column", VInt c2); ("card", VInt k2)]])
              (bool_decide (k1 = k2)) (now req)) ∧
    (∀ k, k ≠ turn_pk game_id (session st) → turns st' !! k = turns st !! k) ∧
    s_turn (session st') = Some (turn_pk game_id (session st) + 1).
Proof.
  intros Hg Hp Hget Hopen H1 Ht H2 Hfresh.
  pose proof (post_second_click _ _ _ _ _ _ _ _ _ _ _ _ Hg Hp Hget Hopen H1 Ht H2)
    as Hpost. cbv zeta in Hpost.
  set (got := (VList _, bool_decide (k1 = k2))) in Hpost.
  assert (Hsize : size (turns (resolved req game_id game got st))
                  = S (size (turns st))).
  { rewrite resolved_turn_count. rewrite bool_decide_false; [done|].
    rewrite Hfresh. by intros []. }
  destruct (enough_matches _ _ _).
  - destruct Hpost as (lt & _ & Hpost). eexists _, _. split; [exact Hpost|].
    rewrite closed_turns, closed_session. split_and!; [done| | |done].
    + apply lookup_insert_eq.
    + intros k Hk. by apply lookup_insert_ne.
  - eexists _, _. split; [exact Hpost|]. split_and!; [done| | |done].
    + apply lookup_insert_eq.
    + intros k Hk. by apply lookup_insert_ne.
Qed.

(** X4: an answer of the play endpoint that is not a 200 is a 500 or a 404
    with [success = false], and the request has written nothing. *)
Theorem error_answers_write_nothing req st resp st' :
  post req st = (Ok resp, st') →
  status resp ≠ 200 →
  st' = st ∧ body resp !! "success" = Some (VBool false) ∧
  (status resp = 500 ∧ s_game (session st) = None ∨
   status resp = 404 ∧ is_Some (s_game (session st))).
Proof.
  intros Hrun Hstatus.
  destruct (s_game (session st)) as [game_id|] eqn:Hg;
    [|rewrite post_no_game in Hrun by done; injection Hrun as <- <-;
      split_and!; [done|done|by left]].
  destruct (s_player (session st)) as [p|] eqn:Hp;
    [|by rewrite (post_no_player _ _ game_id) in Hrun].
  destruct (Game_objects_get game_id p st) as [game|] eqn:Hget;
    [|rewrite (post_not_found _ _ game_id p) in Hrun by done;
      injection Hrun as <- <-; split_and!; [done|done|by right]].
  rewrite (post_found _ _ _ _ _ Hg Hp Hget) in Hrun.
  destruct (open_turn game); simpl in Hrun.
  - destruct (second_click_cases _ _ _ _ _ _ _ Hrun)
      as [(e & [=] & _)|(c1 & c2 & got & Hh & Hpost & Hm)].
    rewrite (second_click_resolved _ _ _ _ _ _ _ _ Hh Hpost Hm) in Hrun.
    cbv zeta in Hrun. destruct (playfield game); [done|].
    destruct (enough_matches _ _ _).
    + destruct (close_game _ _ _ _ _) as [[c|e] st2]; [|done].
      injection Hrun as <- _. done.
    + injection Hrun as <- _. done.
  - apply first_click_Ok in Hrun as (t & c1 & _ & _ & ->). done.
Qed.

(** X5: a request that posts no click, or a click that is not JSON, makes
    the play endpoint raise on a found game before anything is written: the
    pending click, if there is one, stays. *)
Theorem malformed_click_writes_nothing req st game_id p game :
  s_game (session st) = Some game_id →
  s_player (session st) = Some p →
  Game_objects_get game_id p st = Some game →
  (POST_click req = None ∨ ∃ s, POST_click req = Some (Raw s)) →
  ∃ e, post req st = (Raised e, st).
Proof.
  intros Hg Hp Hget Hbad.
  rewrite (post_found _ _ _ _ _ Hg Hp Hget).
  destruct (open_turn game); simpl.
  - unfold second_click.
    destruct (hold_card game) as [c1|s1]; [|by eexists].
    simpl json_loads. rewrite bind_ret.
    destruct Hbad as [->|[s ->]]; by eexists.
  - unfold first_click. destruct Hbad as [->|[s ->]]; by eexists.
Qed.

(** ** Completion *)

(** X6: a playfield with an odd number of cells never completes: the pairs
    are a true division, and no count of matched turns equals a half. *)
Theorem odd_playfield_never_completes pk g st :
  Z.odd (cells g) = true →
  game_completed pk g st = (Ok false, st).
Proof.
  intros Hodd. rewrite game_completed_run.
  destruct (playfield g) as [|row0 rows] eqn:Hpf.
  { unfold cells in Hodd. by rewrite Hpf in Hodd. }
  destruct (enough_matches (turns st) pk g) eqn:Hen; [|done].
  apply enough_matches_Z in Hen. rewrite <- Hen in Hodd.
  by rewrite Z.odd_mul in Hodd.
Qed.

(** X7: the answer that completes a game takes the game out of the session,
    so every further request of that session to the play endpoint is
    answered 500 and writes nothing. *)
Theorem completion_unbinds_game req st resp st' req' :
  post req st = (Ok resp, st') →
  body resp !! "completed" = Some (VBool true) →
  s_game (session st') = None ∧
  post req' st' = (Ok (mkResponse {[ "success" := VBool false ]} 500), st').
Proof.
  intros Hrun Hdone.
  destruct (post_completed _ _ _ _ Hrun Hdone)
    as (gid & p & game & got & lt & _ & _ & _ & _ & ->).
  assert (Hs : s_game (session (closed req gid (cleared game) lt
                                  (resolved req gid game got st))) = None)
    by by rewrite closed_session.
  split; [done|]. by apply post_no_game.
Qed.

(** The entries of the second click's answer that closing does not touch. *)
Lemma answer_of_second_click req ts pk g lt got k :
  k ≠ "score" → k ≠ "completed" → k ≠ "csrf_token" →
  freshen (completion_context req ts pk g lt (click_context req got)) !! k =
    freshen (click_context req got) !! k.
Proof.
  intros H1 H2 H3. rewrite !freshen_lookup_ne, completion_context_lookup by done.
  by rewrite !bool_decide_false by done.
Qed.

Lemma token_of_completing_answer req ts pk g lt got :
  freshen (completion_context req ts pk g lt (click_context req got))
    !! "csrf_token" = Some (VStr (csrf_token req)).
Proof.
  rewrite freshen_lookup_token, completion_context_lookup.
  rewrite !bool_decide_false by done. by rewrite click_context_lookup.
Qed.

(** X8: a round.  The first click on a game without a pending click, then
    a second click, both naming cells: the second answer lists both clicks
    in order with their cards and says whether the cards are equal, the
    Turn saved holds the same, and no click is pending afterwards. *)
Theorem round_resolves_pair req1 req2 st game_id p game t1 r1 c1 k1 t2 r2 c2 k2 :
  s_game (session st) = Some game_id →
  s_player (session st) = Some p →
  Game_objects_get game_id p st = Some game →
  open_turn game = false →
  POST_click req1 = Some t1 → names_cell game t1 r1 c1 k1 →
  POST_click req2 = Some t2 → names_cell game t2 r2 c2 k2 →
  let clicks :=
    VList [VDict [("row", VInt r1); ("column", VInt c1); ("card", VInt k1)];
           VDict [("row", VInt r2); ("column", VInt c2); ("card", VInt k2)]] in
  ∃ resp1 st1 resp2 st2,
    post req1 st = (Ok resp1, st1) ∧
    post req2 st1 = (Ok resp2, st2) ∧
    body resp2 !! "click" = Some clicks ∧
    body resp2 !! "match" = Some (VBool (bool_decide (k1 = k2))) ∧
    turns st2 !! turn_pk game_id (session st) =
      Some (mkTurn game_id clicks (bool_decide (k1 = k2)) (now req2)) ∧
    ∃ g2, games st2 !! game_id = Some g2 ∧ open_turn g2 = false.
Proof.
  intros Hg Hp Hget Hopen Ht1 H1 Ht2 H2 clicks.
  rewrite (post_first_click _ _ _ _ _ _ _ _ _ Hg Hp Hget Hopen Ht1 H1).
  set (st1 := set_games _ st).
  assert (Hget1 : Game_objects_get game_id p st1 = Some (update_turn game true t1)).
  { apply Game_objects_get_Some in Hget as (_ & Hpl & Ha & Hf).
    apply Game_objects_get_Some. simpl. by rewrite lookup_insert_eq. }
  pose proof (post_second_click req2 st1 game_id p (update_turn game true t1)
                r1 c1 k1 t2 r2 c2 k2 Hg Hp Hget1 eq_refl H1 Ht2 H2) as Hpost.
  cbv zeta in Hpost. fold clicks in Hpost.
  set (got := (clicks, bool_decide (k1 = k2))) in Hpost.
  eexists _, st1. destruct (enough_matches _ _ _).
  - destruct Hpost as (lt & _ & Hpost). eexists _, _.
    split; [done|]. split; [exact Hpost|]. cbn [body].
    rewrite !answer_of_second_click by done.
    destruct (plain_answer req2 got) as (_ & _ & -> & -> & _).
    rewrite closed_turns, closed_games. split_and!; [done|done| |].
    + apply lookup_insert_eq.
    + eexists. by rewrite lookup_insert_eq.
  - eexists _, _. split; [done|]. split; [exact Hpost|]. cbn [body].
    destruct (plain_answer req2 got) as (_ & _ & -> & -> & _).
    split_and!; [done|done| |].
    + apply lookup_insert_eq.
    + eexists. by rewrite resolved_games, lookup_insert_eq.
Qed.

(** X9: every answer to a second click is a 200 with [success = true] and
    carries the token of the request, forced to a string, completing or
    not. *)
Theorem second_click_answer_has_token req st game_id p game resp st' :
  s_game (session st) = Some game_id →
  s_player (session st) = Some p →
  Game_objects_get game_id p st = Some game →
  open_turn game = true →
  post req st = (Ok resp, st') →
  status resp = 200 ∧
  body resp !! "success" = Some (VBool true) ∧
  body resp !! "csrf_token" = Some (VStr (csrf_token req)) ∧
  is_Some (body resp !! "click") ∧ is_Some (body resp !! "match").
Proof.
  intros Hg Hp Hget Hopen Hrun.
  rewrite (post_found _ _ _ _ _ Hg Hp Hget), Hopen in Hrun. simpl in Hrun.
  destruct (second_click_cases _ _ _ _ _ _ _ Hrun)
    as [(e & [=] & _)|(c1 & c2 & got & Hh & Hpost & Hm)].
  rewrite (second_click_resolved _ _ _ _ _ _ _ _ Hh Hpost Hm) in Hrun.
  cbv zeta in Hrun.
  change (update (the_click got) _) with (click_context req got) in Hrun.
  destruct (playfield game); [done|].
  destruct (plain_answer req got) as (_ & _ & Hmatch & Hclick & Hsucc & Htok).
  destruct (enough_matches _ _ _).
  - rewrite close_game_run in Hrun. destruct (last _) as [lt|]; [|done].
    case_bool_decide; [done|]. injection Hrun as <- _. cbn [body status].
    rewrite token_of_completing_answer. rewrite !answer_of_second_click by done.
    rewrite Hmatch, Hclick. by split_and!.
  - injection Hrun as <- _. cbn [body status].
    rewrite Hmatch, Hclick. by split_and!.
Qed.

(** ** What a play request leaves alone *)

(** X10: whatever its outcome, a play request adds and removes no game,
    writes no game but the one bound to the session, writes no Turn but
    the one under the key computed from the session, and leaves the
    player, the session's uuid and the click of the session as they are. *)
Theorem post_writes_one_row req st :
  let st' := (post req st).2 in
  dom (games st') = dom (games st) ∧
  (∀ k, s_game (session st) ≠ Some k → games st' !! k = games st !! k) ∧
  (∀ k, (∀ game_id, s_game (session st) = Some game_id →
                    k ≠ turn_pk game_id (session st)) →
        turns st' !! k = turns st !! k) ∧
  s_player (session st') = s_player (session st) ∧
  s_game_id (session st') = s_game_id (session st) ∧
  s_click (session st') = s_click (session st).
Proof.
  intros st'. subst st'. destruct (post req st) as [r st'] eqn:Hrun. simpl.
  destruct (post_shapes _ _ _ _ Hrun)
    as [->|(gid & p & game & Hg & Hp & Hget & Hshape)]; [done|].
  apply Game_objects_get_Some in Hget as (Hlook & _).
  assert (Hdom : ∀ x : Game, dom (<[gid := x]> (games st)) = dom (games st)).
  { intros x. rewrite dom_insert_L. apply subseteq_union_1_L.
    apply singleton_subseteq_l. by eapply elem_of_dom_2. }
  assert (Hother : ∀ (x : Game) k, s_game (session st) ≠ Some k →
                     <[gid := x]> (games st) !! k = games st !! k).
  { intros x k Hk. apply lookup_insert_ne. congruence. }
  assert (Hturn : ∀ (x : Turn) k,
            (∀ game_id, s_game (session st) = Some game_id →
                        k ≠ turn_pk game_id (session st)) →
            <[turn_pk gid (session st) := x]> (turns st) !! k = turns st !! k).
  { intros x k Hk. apply lookup_insert_ne. intros <-. by apply (Hk gid). }
  destruct Hshape as [(_ & t & _ & ->)|(_ & got & [->|[->|(lt & ->)]])].
  - simpl. split_and!; auto.
  - simpl. split_and!; auto.
  - simpl. split_and!; auto.
  - rewrite closed_games, closed_turns, closed_session, resolved_games.
    rewrite insert_insert_eq. simpl. split_and!; auto.
Qed.

(** X11: a session that holds a Turn counter never goes back on it.  A
    play request either leaves the counter and the Turn table as they are,
    or writes one Turn of the session's game under the counter and moves
    the counter one up. *)
Theorem turn_counter_advances req st n :
  s_turn (session st) = Some n →
  let st' := (post req st).2 in
  (s_turn (session st') = Some n ∧ turns st' = turns st) ∨
  (s_turn (session st') = Some (n + 1) ∧
   ∃ t, turns st' = <[n := t]> (turns st) ∧
        s_game (session st) = Some (turn_game t)).
Proof.
  intros Hn st'. subst st'. destruct (post req st) as [r st'] eqn:Hrun. simpl.
  destruct (post_shapes _ _ _ _ Hrun)
    as [->|(gid & p & game & Hg & Hp & Hget & Hshape)]; [by left|].
  assert (Hpk : turn_pk gid (session st) = n) by (unfold turn_pk; by rewrite Hn).
  destruct Hshape as [(_ & t & _ & ->)|(_ & got & [->|[->|(lt & ->)]])].
  - by left.
  - right. simpl. rewrite Hpk. split; [done|]. by eexists.
  - right. simpl. rewrite Hpk. split; [done|]. by eexists.
  - right. rewrite closed_turns, closed_session. simpl. rewrite Hpk.
    split; [done|]. by eexists.
Qed.

(** X12: a session bound to a game that is finished, stopped, of another
    player, or not in the table is answered 404 with a message, and
    nothing is written. *)
Theorem unplayable_game_answers_404 req st game_id p :
  s_game (session st) = Some game_id →
  s_player (session st) = Some p →
  (games st !! game_id = None ∨
   ∃ g, games st !! game_id = Some g ∧
        (finished g = true ∨ active g = false ∨ player g ≠ p)) →
  post req st =
    (Ok (mkResponse (<["msg" := VStr "No active game session found."]>
                       {[ "success" := VBool false ]}) 404), st).
Proof.
  intros Hg Hp Hrow. apply (post_not_found _ _ game_id p); [done..|].
  destruct (Game_objects_get game_id p st) as [game|] eqn:Hget; [|done].
  apply Game_objects_get_Some in Hget as (Hlook & Hpl & Ha & Hf).
  destruct Hrow as [Hnone|(g & Hsome & Hbad)]; [congruence|].
  rewrite Hlook in Hsome. injection Hsome as <-.
  destruct Hbad as [?|[?|?]]; congruence.
Qed.

End Frames.

Section StartAndHighscore.
Context `{collaborators : Collaborators}.

(** ** The start endpoint *)

Lemma foldr_max_ge (l : list Z) k : k ∈ l → k ≤ foldr Z.max 0 l.
Proof.
  induction l as [|x l IH]; [by intros ?%elem_of_nil|].
  intros [->|Hin]%elem_of_cons; simpl; [lia|]. specialize (IH Hin). lia.
Qed.

(** The key of a new game is not in the table. *)
Lemma next_pk_fresh (gs : gmap Z Game) : gs !! next_pk gs = None.
Proof.
  destruct (gs !! next_pk gs) as [g|] eqn:Hlook; [|done].
  assert (next_pk gs ∈ (map_to_list gs).*1) as Hin.
  { apply list_elem_of_fmap. exists (next_pk gs, g).
    split; [done|]. by apply elem_of_map_to_list. }
  apply foldr_max_ge in Hin. unfold next_pk in Hin. lia.
Qed.

Lemma next_pk_fresh_stop p (gs : gmap Z Game) :
  gs !! next_pk (stop p <$> gs) = None.
Proof.
  pose proof (next_pk_fresh (stop p <$> gs)) as Hfresh.
  rewrite lookup_fmap in Hfresh. by destruct (gs !! _).
Qed.

(** The state the start endpoint leaves once a player is drawn, whatever
    [get_game_context] answers afterwards. *)
Lemma get_context_data_effect req st r st' p :
  get_context_data req st = (r, st') →
  USER_EMAILS !! (draw req `mod` length USER_EMAILS)%nat = Some p →
  let gs := stop p <$> games st in
  games st' =
    <[next_pk gs := new_game p (uuid_b req)
                      (generate_play_field 2 3 (uuid_b req)) (now req)]> gs ∧
  session st' = mkSession (Some p) (Some (uuid_a req)) (Some (next_pk gs)) None
                          (s_turn (session st)) ∧
  turns st' = turns st ∧ suspected st' = suspected st.
Proof.
  unfold get_context_data, choice. intros Hrun Hp. rewrite Hp in Hrun.
  simpl or_raise in Hrun. rewrite bind_ret in Hrun.
  unfold stop_active_games_for_player, save_game in Hrun.
  rewrite !bind_modify, bind_get_state, bind_when in Hrun.
  rewrite bind_get_state, bind_when in Hrun.
  change (list_index [2; 3] 0) with (@ret Z 2) in Hrun.
  rewrite bind_ret in Hrun.
  change (list_index [2; 3] 1) with (@ret Z 3) in Hrun.
  rewrite bind_ret, bind_get_state, !bind_modify in Hrun.
  set (st5 := set_session _ _) in Hrun.
  assert (st' = st5) as ->.
  { apply bind_pure_inv in Hrun as [(c & _ & Hret)|(e & _ & _ & ->)];
      [by injection Hret|done|apply pure_get_game_context]. }
  subst st5. clear Hrun. destruct st as [gs ts su [pl gi ga cl tu]].
  destruct ga, cl; simpl; by split_and!.
Qed.

(** X13: once a player is drawn, the start endpoint adds one game under a
    key that was not in use, binds that key to the session, clears the
    active flag of the selected player's active games, and changes nothing
    else in the Game table, also when it raises afterwards. *)
Theorem start_adds_one_game req st p :
  USER_EMAILS !! (draw req `mod` length USER_EMAILS)%nat = Some p →
  let st' := (get_context_data req st).2 in
  ∃ pk,
    s_game (session st') = Some pk ∧
    games st !! pk = None ∧
    games st' !! pk =
      Some (new_game p (uuid_b req) (generate_play_field 2 3 (uuid_b req))
                     (now req)) ∧
    dom (games st') = {[ pk ]} ∪ dom (games st) ∧
    (∀ k g, games st !! k = Some g → games st' !! k = Some (stop p g)) ∧
    (∀ k g, games st !! k = Some g → player g ≠ p ∨ active g = false →
            games st' !! k = Some g).
Proof.
  intros Hp st'. subst st'.
  destruct (get_context_data req st) as [r st'] eqn:Hrun. simpl.
  destruct (get_context_data_effect _ _ _ _ _ Hrun Hp)
    as (Hgames & Hsess & _ & _).
  set (pk := next_pk (stop p <$> games st)) in *.
  assert (Hfresh : games st !! pk = None) by apply next_pk_fresh_stop.
  assert (Hkeep : ∀ k g, games st !! k = Some g →
                         games st' !! k = Some (stop p g)).
  { intros k g Hk. rewrite Hgames, lookup_insert_ne by congruence.
    by rewrite lookup_fmap, Hk. }
  exists pk. rewrite Hsess. split_and!; [done|done| | |done|].
  - by rewrite Hgames, lookup_insert_eq.
  - by rewrite Hgames, dom_insert_L, dom_fmap_L.
  - intros k g Hk Hother. rewrite (Hkeep k g Hk). f_equal. unfold stop.
    destruct Hother as [Hne| ->]; [by rewrite bool_decide_false|].
    by rewrite andb_false_r.
Qed.

(** X14: the start endpoint resets the game and the click of the session
    but keeps its Turn counter, and writes no Turn. *)
Theorem start_keeps_turn_counter req st p :
  USER_EMAILS !! (draw req `mod` length USER_EMAILS)%nat = Some p →
  let st' := (get_context_data req st).2 in
  s_turn (session st') = s_turn (session st) ∧
  s_click (session st') = None ∧
  s_player (session st') = Some p ∧
  s_game_id (session st') = Some (uuid_a req) ∧
  turns st' = turns st ∧ suspected st' = suspected st.
Proof.
  intros Hp st'. subst st'.
  destruct (get_context_data req st) as [r st'] eqn:Hrun. simpl.
  destruct (get_context_data_effect _ _ _ _ _ Hrun Hp)
    as (_ & -> & -> & ->). done.
Qed.

(** X15: with no configured player the start endpoint raises [IndexError]
    before anything is written. *)
Theorem start_without_players req st :
  USER_EMAILS = [] →
  get_context_data req st = (Raised IndexError, st).
Proof.
  intros Hnone. unfold get_context_data, choice. by rewrite Hnone.
Qed.

Lemma no_high_score (gs : gmap Z Game) p :
  (∀ k g, gs !! k = Some g → player g = p → positive_score g = false) →
  size (high_score_games gs p) = 0%nat.
Proof.
  intros Hnone. apply map_size_empty_iff, map_empty. intros k.
  destruct (high_score_games gs p !! k) as [g|] eqn:Hk; [|done].
  apply map_lookup_filter_Some in Hk as (Hk & Hp & Hpos). simpl in *.
  by rewrite (Hnone k g Hk Hp) in Hpos.
Qed.

(** The rendering data of [get_game_context] when the player has no game
    with a positive score. *)
Lemma get_game_context_ok st p :
  s_player (session st) = Some p →
  size (high_score_games (games st) p) = 0%nat →
  ∃ context data pieces,
    get_game_context [2; 3] st = (Ok context, st) ∧
    context !! "player" = None ∧
    context !! "csrf_token" = None ∧
    context !! "game_name" = Some (VStr "Memory") ∧
    context !! "game_data" = Some (VJson (VDict data)) ∧
    dict_get "best_score" data = Some (VDec 0) ∧
    dict_get "rows" data = Some (VInt 2) ∧
    dict_get "cols" data = Some (VInt 3) ∧
    dict_get "pieces" data = Some (VList pieces) ∧
    length pieces = 10%nat ∧
    pieces !! 0%nat = Some (VStr (static "img/memory/stack/1.jpg")) ∧
    pieces !! 9%nat = Some (VStr (static "img/memory/stack/10.jpg")).
Proof.
  intros Hp Hsize. unfold get_game_context. rewrite bind_get_state, Hp.
  simpl or_raise. rewrite bind_ret.
  rewrite bool_decide_false by (by intros []). rewrite bind_ret.
  change (list_index [2; 3] 0) with (@ret Z 2). rewrite bind_ret.
  change (list_index [2; 3] 1) with (@ret Z 3). rewrite bind_ret.
  eexists _, _, _. split; [reflexivity|].
  split_and!;
    [done|done|by rewrite lookup_insert_eq
    |by rewrite lookup_insert_ne, lookup_singleton_eq|reflexivity..].
Qed.

(** X16: when the selected player has no game with a positive score, the
    start endpoint returns the rendering data: the player, the lazy token,
    the game's name, and the game data with best score 0.0, 2 rows,
    3 columns and ten card images. *)
Theorem start_answer req st p :
  USER_EMAILS !! (draw req `mod` length USER_EMAILS)%nat = Some p →
  (∀ k g, games st !! k = Some g → player g = p → positive_score g = false) →
  ∃ context st' data pieces,
    get_context_data req st = (Ok context, st') ∧
    context !! "player" = Some (VStr p) ∧
    context !! "csrf_token" = Some (VLazy (csrf_token req)) ∧
    context !! "game_name" = Some (VStr "Memory") ∧
    context !! "game_data" = Some (VJson (VDict data)) ∧
    dict_get "best_score" data = Some (VDec 0) ∧
    dict_get "rows" data = Some (VInt 2) ∧
    dict_get "cols" data = Some (VInt 3) ∧
    dict_get "pieces" data = Some (VList pieces) ∧
    length pieces = 10%nat ∧
    pieces !! 0%nat = Some (VStr (static "img/memory/stack/1.jpg")) ∧
    pieces !! 9%nat = Some (VStr (static "img/memory/stack/10.jpg")).
Proof.
  intros Hp Hnone.
  destruct (get_context_data req st) as [r st'] eqn:Hrun.
  destruct (get_context_data_effect _ _ _ _ _ Hrun Hp)
    as (Hgames & Hsess & _ & _).
  revert Hrun. unfold get_context_data, choice. rewrite Hp.
  simpl or_raise. rewrite bind_ret.
  unfold stop_active_games_for_player, save_game.
  rewrite !bind_modify, bind_get_state, bind_when.
  rewrite bind_get_state, bind_when.
  change (list_index [2; 3] 0) with (@ret Z 2). rewrite bind_ret.
  change (list_index [2; 3] 1) with (@ret Z 3).
  rewrite bind_ret, bind_get_state, !bind_modify.
  set (st5 := set_session _ _). intros Hrun.
  assert (st' = st5) as Hst.
  { apply bind_pure_inv in Hrun as [(c & _ & Hret)|(e & _ & _ & ->)];
      [by injection Hret|done|apply pure_get_game_context]. }
  assert (Hpl : s_player (session st5) = Some p) by by rewrite <- Hst, Hsess.
  assert (Hsize : size (high_score_games (games st5) p) = 0%nat).
  { apply no_high_score. rewrite <- Hst, Hgames. intros k g Hk Hplayer.
    destruct (decide (k = next_pk (stop p <$> games st))) as [->|Hne].
    - rewrite lookup_insert_eq in Hk. by injection Hk as <-.
    - rewrite lookup_insert_ne, lookup_fmap in Hk by done.
      destruct (games st !! k) as [g0|] eqn:Hg0; [|done]. injection Hk as <-.
      rewrite stop_player in Hplayer.
      assert (positive_score (stop p g0) = positive_score g0) as ->
        by (unfold stop; by destruct (_ && _)).
      by apply (Hnone k g0). }
  clearbody st5.
  destruct (get_game_context_ok st5 p Hpl Hsize)
    as (gc & data & pieces & Hgc & Hno1 & Hno2 & Hname & Hdata & Hrest).
  rewrite (bind_Ok _ _ _ _ _ Hgc) in Hrun. injection Hrun as <- _.
  exists (update gc (update (aquire_csrf req) (<["player" := VStr p]> ∅))),
    st5, data, pieces.
  split; [by rewrite Hst|]. unfold update, aquire_csrf. rewrite !lookup_union.
  rewrite Hno1, Hno2, Hname, Hdata.
  rewrite lookup_singleton_ne, lookup_singleton_eq, lookup_insert_eq by done.
  destruct Hrest as (? & ? & ? & ? & ? & ? & ?).
  split_and!; try done;
    by repeat match goal with
              | |- context [?m !! ?k] => destruct (m !! k)
              end.
Qed.

(** X17: having been stopped by a new start for its player, an earlier
    game is no longer playable: a session still bound to it is answered
    404. *)
Theorem start_stops_previous_game req st p k g sess req' :
  USER_EMAILS !! (draw req `mod` length USER_EMAILS)%nat = Some p →
  games st !! k = Some g →
  player g = p →
  s_game sess = Some k →
  s_player sess = Some p →
  let st' := set_session (λ _, sess) (get_context_data req st).2 in
  post req' st' =
    (Ok (mkResponse (<["msg" := VStr "No active game session found."]>
                       {[ "success" := VBool false ]}) 404), st').
Proof.
  intros Hp Hk Hplayer Hgame Hsess st'. subst st'.
  destruct (get_context_data req st) as [r st1] eqn:Hrun. simpl.
  destruct (get_context_data_effect _ _ _ _ _ Hrun Hp) as (Hgames & _).
  apply (post_not_found _ _ k p); [done..|].
  destruct (Game_objects_get _ _ _) as [game|] eqn:Hget; [|done].
  apply Game_objects_get_Some in Hget as (Hlook & _ & Ha & _). simpl in Hlook.
  rewrite Hgames, lookup_insert_ne, lookup_fmap, Hk in Hlook.
  - injection Hlook as <-. apply stop_active in Ha as [_ Hne]. done.
  - intros Heq. rewrite <- Heq, next_pk_fresh_stop in Hk. done.
Qed.

(** ** The highscore endpoint *)

(** X18: the highscore endpoint writes nothing.  With a player in the
    session it returns the player, the best score, at most the first five
    highscores and the first component of the unique highscores, when the
    sliced answer of the manager has exactly two components; otherwise it
    raises [ValueError]. *)
Theorem highscore_answer st p :
  s_player (session st) = Some p →
  (∀ u x, take 5 (get_unique_highscores (games st)) = [u; x] →
     ∃ context l,
       highscore_get_context_data st = (Ok context, st) ∧
       context !! "player" = Some (VStr p) ∧
       context !! "best_score" = Some (get_player_best_score (games st) p) ∧
       context !! "highscores" = Some (VList l) ∧
       l `prefix_of` get_highscores (games st) ∧ (length l ≤ 5)%nat ∧
       context !! "unique_highscores" = Some u) ∧
  (length (take 5 (get_unique_highscores (games st))) ≠ 2%nat →
   highscore_get_context_data st = (Raised ValueError, st)).
Proof.
  intros Hp. unfold highscore_get_context_data.
  rewrite bind_get_state, Hp. simpl or_raise. rewrite bind_ret. split.
  - intros u x ->. eexists _, _. split; [reflexivity|].
    split_and!.
    + by rewrite !lookup_insert_ne, lookup_insert_eq by done.
    + by rewrite !lookup_insert_ne, lookup_insert_eq by done.
    + by rewrite lookup_insert_ne, lookup_insert_eq by done.
    + apply prefix_take.
    + rewrite length_take. lia.
    + by rewrite lookup_insert_eq.
  - intros Hlen.
    destruct (take 5 _) as [|u [|x [|y l]]]; simpl in Hlen; done.
Qed.

End StartAndHighscore.

(** ** The further properties on concrete requests *)

Lemma first_click_writes_no_turn_witness :
  turns (post (request_at 2000000 (Some (click_at 0 0)) 0) fresh_state).2
    = turns fresh_state ∧
  session (post (request_at 2000000 (Some (click_at 0 0)) 0) fresh_state).2
    = session fresh_state ∧
  suspected (post (request_at 2000000 (Some (click_at 0 0)) 0) fresh_state).2
    = suspected fresh_state.
Proof.
  apply (first_click_writes_no_turn _ fresh_state 1 ann
           (ann_game false (Enc (VDict [])))); reflexivity.
Defined.

Lemma first_click_is_held_witness :
  ∃ resp st',
    post (request_at 2000000 (Some (click_at 0 0)) 0) fresh_state
      = (Ok resp, st') ∧
    status resp = 200 ∧
    dom (body resp) = {[ "success"; "click" ]} ∧
    body resp !! "success" = Some (VBool true) ∧
    body resp !! "click" =
      Some (VList [VDict [("row", VInt 0); ("column", VInt 0);
                          ("card", VInt 1)]]) ∧
    ∃ held,
      Game_objects_get 1 ann st' = Some held ∧
      open_turn held = true ∧ hold_card held = click_at 0 0.
Proof.
  apply (first_click_is_held _ fresh_state 1 ann
           (ann_game false (Enc (VDict []))) (click_at 0 0) 0 0 1);
    try reflexivity. apply cell_of_names. reflexivity.
Defined.

Lemma second_click_adds_one_turn_witness :
  ∃ resp st',
    post (request_at 3000000 (Some (click_at 1 0)) 0) pending_state
      = (Ok resp, st') ∧
    size (turns st') = S (size (turns pending_state)) ∧
    turns st' !! turn_pk 1 (session pending_state) =
      Some (mkTurn 1
              (VList [VDict [("row", VInt 0); ("column", VInt 0); ("card", VInt 1)];
                      VDict [("row", VInt 1); ("column", VInt 0); ("card", VInt 1)]])
              (bool_decide (1 = 1)) 3000000) ∧
    (∀ k, k ≠ turn_pk 1 (session pending_state) →
          turns st' !! k = turns pending_state !! k) ∧
    s_turn (session st') = Some (turn_pk 1 (session pending_state) + 1).
Proof.
  apply (second_click_adds_one_turn
           (request_at 3000000 (Some (click_at 1 0)) 0) pending_state 1 ann
           (ann_game true (click_at 0 0)) 0 0 1 (click_at 1 0) 1 0 1);
    try reflexivity; apply cell_of_names; reflexivity.
Defined.

Lemma error_answers_write_nothing_witness :
  empty_state = empty_state ∧
  body (mkResponse {[ "success" := VBool false ]} 500) !! "success"
    = Some (VBool false) ∧
  (status (mkResponse {[ "success" := VBool false ]} 500) = 500 ∧
   s_game (session empty_state) = None ∨
   status (mkResponse {[ "success" := VBool false ]} 500) = 404 ∧
   is_Some (s_game (session empty_state))).
Proof.
  apply (error_answers_write_nothing
           (request_at 1000000 (Some (click_at 0 0)) 0) empty_state);
    [reflexivity | discriminate].
Defined.

Lemma malformed_click_writes_nothing_witness :
  ∃ e, post (request_at 3000000 (Some (Raw "{row:")) 0) pending_state
       = (Raised e, pending_state).
Proof.
  apply (malformed_click_writes_nothing _ pending_state 1 ann
           (ann_game true (click_at 0 0))); try reflexivity.
  right. by eexists.
Defined.

Lemma odd_playfield_never_completes_witness :
  game_completed 1 strip_game empty_state = (Ok false, empty_state).
Proof. apply odd_playfield_never_completes. reflexivity. Defined.

Lemma completion_unbinds_game_witness :
  ∃ resp st',
    post last_click last_pair_state = (Ok resp, st') ∧
    s_game (session st') = None ∧
    post (request_at 8000000 (Some (click_at 0 0)) 0) st'
      = (Ok (mkResponse {[ "success" := VBool false ]} 500), st').
Proof.
  eexists _, _. split; [vm_compute; reflexivity|].
  eapply (completion_unbinds_game last_click last_pair_state);
    vm_compute; reflexivity.
Defined.

Lemma round_resolves_pair_witness :
  ∃ resp1 st1 resp2 st2,
    post (request_at 2000000 (Some (click_at 0 0)) 0) fresh_state
      = (Ok resp1, st1) ∧
    post (request_at 3000000 (Some (click_at 1 0)) 0) st1 = (Ok resp2, st2) ∧
    body resp2 !! "click" =
      Some (VList [VDict [("row", VInt 0); ("column", VInt 0); ("card", VInt 1)];
                   VDict [("row", VInt 1); ("column", VInt 0); ("card", VInt 1)]]) ∧
    body resp2 !! "match" = Some (VBool (bool_decide (1 = 1))) ∧
    turns st2 !! turn_pk 1 (session fresh_state) =
      Some (mkTurn 1
              (VList [VDict [("row", VInt 0); ("column", VInt 0); ("card", VInt 1)];
                      VDict [("row", VInt 1); ("column", VInt 0); ("card", VInt 1)]])
              (bool_decide (1 = 1)) 3000000) ∧
    ∃ g2, games st2 !! 1 = Some g2 ∧ open_turn g2 = false.
Proof.
  apply (round_resolves_pair
           (request_at 2000000 (Some (click_at 0 0)) 0)
           (request_at 3000000 (Some (click_at 1 0)) 0) fresh_state 1 ann
           (ann_game false (Enc (VDict [])))
           (click_at 0 0) 0 0 1 (click_at 1 0) 1 0 1);
    try reflexivity; apply cell_of_names; reflexivity.
Defined.

Lemma second_click_answer_has_token_witness :
  ∃ resp st',
    post (request_at 3000000 (Some (click_at 0 1)) 0) pending_state
      = (Ok resp, st') ∧
    status resp = 200 ∧
    body resp !! "success" = Some (VBool true) ∧
    body resp !! "csrf_token" = Some (VStr "Zk3vQ9") ∧
    is_Some (body resp !! "click") ∧ is_Some (body resp !! "match").
Proof.
  eexists _, _. split; [vm_compute; reflexivity|].
  eapply (second_click_answer_has_token
            (request_at 3000000 (Some (click_at 0 1)) 0) pending_state 1 ann
            (ann_game true (click_at 0 0)));
    vm_compute; reflexivity.
Defined.

Lemma turn_counter_advances_witness :
  let st' := (post last_click last_pair_state).2 in
  (s_turn (session st') = Some 13 ∧ turns st' = turns last_pair_state) ∨
  (s_turn (session st') = Some (13 + 1) ∧
   ∃ t, turns st' = <[13 := t]> (turns last_pair_state) ∧
        s_game (session last_pair_state) = Some (turn_game t)).
Proof. apply (turn_counter_advances last_click last_pair_state 13). reflexivity. Defined.

Lemma unplayable_game_answers_404_witness :
  post (request_at 9000000 (Some (click_at 0 0)) 0) stale_state =
    (Ok (mkResponse (<["msg" := VStr "No active game session found."]>
                       {[ "success" := VBool false ]}) 404), stale_state).
Proof.
  apply (unplayable_game_answers_404 _ stale_state 1 ann); try reflexivity.
  right. eexists. split; [vm_compute; reflexivity|]. left. reflexivity.
Defined.

Lemma start_adds_one_game_witness :
  let st' := (get_context_data (request_at 20000000 None 1) fresh_state).2 in
  ∃ pk,
    s_game (session st') = Some pk ∧
    games fresh_state !! pk = None ∧
    games st' !! pk =
      Some (new_game "bob@example.org" (uuid_b (request_at 20000000 None 1))
              (generate_play_field 2 3 (uuid_b (request_at 20000000 None 1)))
              20000000) ∧
    dom (games st') = {[ pk ]} ∪ dom (games fresh_state) ∧
    (∀ k g, games fresh_state !! k = Some g →
            games st' !! k = Some (stop "bob@example.org" g)) ∧
    (∀ k g, games fresh_state !! k = Some g →
            player g ≠ "bob@example.org" ∨ active g = false →
            games st' !! k = Some g).
Proof.
  apply (start_adds_one_game (request_at 20000000 None 1) fresh_state).
  reflexivity.
Defined.

Lemma start_keeps_turn_counter_witness :
  let st' := (get_context_data (request_at 20000000 None 0) stale_state).2 in
  s_turn (session st') = s_turn (session stale_state) ∧
  s_click (session st') = None ∧
  s_player (session st') = Some ann ∧
  s_game_id (session st') = Some (uuid_a (request_at 20000000 None 0)) ∧
  turns st' = turns stale_state ∧ suspected st' = suspected stale_state.
Proof.
  apply (start_keeps_turn_counter (request_at 20000000 None 0) stale_state).
  reflexivity.
Defined.

Lemma start_without_players_witness :
  @get_context_data nobody (request_at 1000000 None 0) empty_state
    = (Raised IndexError, empty_state).
Proof. apply (@start_without_players nobody). reflexivity. Defined.

Lemma start_answer_witness :
  ∃ context st' data pieces,
    get_context_data (request_at 1000000 None 0) empty_state
      = (Ok context, st') ∧
    context !! "player" = Some (VStr ann) ∧
    context !! "csrf_token" = Some (VLazy "Zk3vQ9") ∧
    context !! "game_name" = Some (VStr "Memory") ∧
    context !! "game_data" = Some (VJson (VDict data)) ∧
    dict_get "best_score" data = Some (VDec 0) ∧
    dict_get "rows" data = Some (VInt 2) ∧
    dict_get "cols" data = Some (VInt 3) ∧
    dict_get "pieces" data = Some (VList pieces) ∧
    length pieces = 10%nat ∧
    pieces !! 0%nat = Some (VStr (static "img/memory/stack/1.jpg")) ∧
    pieces !! 9%nat = Some (VStr (static "img/memory/stack/10.jpg")).
Proof.
  apply (start_answer (request_at 1000000 None 0) empty_state ann);
    [reflexivity|]. intros k g Hk. vm_compute in Hk. discriminate.
Defined.

Lemma start_stops_previous_game_witness :
  let st' := set_session (λ _, ann_session None)
               (get_context_data (request_at 20000000 None 0) fresh_state).2 in
  post (request_at 21000000 (Some (click_at 0 0)) 0) st' =
    (Ok (mkResponse (<["msg" := VStr "No active game session found."]>
                       {[ "success" := VBool false ]}) 404), st').
Proof.
  apply (start_stops_previous_game (request_at 20000000 None 0) fresh_state
           ann 1 (ann_game false (Enc (VDict []))) (ann_session None));
    reflexivity.
Defined.

Lemma highscore_answer_witness :
  ∃ context l,
    highscore_get_context_data fresh_state = (Ok context, fresh_state) ∧
    context !! "player" = Some (VStr ann) ∧
    context !! "best_score" = Some (get_player_best_score (games fresh_state) ann) ∧
    context !! "highscores" = Some (VList l) ∧
    l `prefix_of` get_highscores (games fresh_state) ∧ (length l ≤ 5)%nat ∧
    context !! "unique_highscores" = Some (VList []).
Proof.
  apply (proj1 (highscore_answer fresh_state ann eq_refl) (VList []) (VInt 0)).
  reflexivity.
Defined.
